(** * NACE taxonomy parser (app/tools/parser.py): model and properties

    A shallow embedding of the three functions of [app/tools/parser.py]:
    [parse_nace_activities], [validate_nace_activities] and
    [split_nace_by_sections], together with the Python string and [re]
    primitives they call.

    A Python [str] is a sequence of Unicode code points; it is modelled as a
    list of code points ([N]).  Exceptions are modelled by an error monad;
    [print] by an explicit output log. *)

From Stdlib Require Import String Ascii.
From Stdlib Require Import List Bool Arith NArith Lia.
From Stdlib Require Import Sorting.Sorted Sorting.Permutation.
Import ListNotations.

(* ================================================================== *)
(** * Part 1: Python strings *)
(* ================================================================== *)

Definition char := N.
Definition str := list char.

(** An ASCII literal as a [str]. *)
Definition lit (s : string) : str := map N_of_ascii (list_ascii_of_string s).

(** Named code points used by the source. *)
Definition LF : char := 10%N.          (* "\n" *)
Definition SPACE : char := 32%N.
Definition TAB : char := 9%N.
Definition HASH : char := 35%N.        (* "#" *)
Definition STAR : char := 42%N.        (* "*" *)
Definition HYPHEN : char := 45%N.      (* "-" *)
Definition DOT : char := 46%N.         (* "." *)
Definition COLON : char := 58%N.       (* ":" *)
Definition EN_DASH : char := 8211%N.   (* U+2013 *)
Definition EM_DASH : char := 8212%N.   (* U+2014 *)

Definition in_ranges (rs : list (N * N)) (c : char) : bool :=
  existsb (fun r => (fst r <=? c)%N && (c <=? snd r)%N) rs.

(** Code points for which [str.isspace] holds; the same class is used by
    [str.strip()], [str.split()] and the pattern escape [\s]. *)
Definition space_ranges : list (N * N) :=
  [(9, 13); (28, 32); (133, 133); (160, 160); (5760, 5760); (8192, 8202);
   (8232, 8233); (8239, 8239); (8287, 8287); (12288, 12288)]%N.

(** Code points of general category Nd (Unicode 14.0, CPython 3.11): the
    class of the pattern escape [\d] on [str] patterns. *)
Definition decimal_ranges : list (N * N) :=
  [(48, 57); (1632, 1641); (1776, 1785); (1984, 1993); (2406, 2415);
   (2534, 2543); (2662, 2671); (2790, 2799); (2918, 2927); (3046, 3055);
   (3174, 3183); (3302, 3311); (3430, 3439); (3558, 3567); (3664, 3673);
   (3792, 3801); (3872, 3881); (4160, 4169); (4240, 4249); (6112, 6121);
   (6160, 6169); (6470, 6479); (6608, 6617); (6784, 6793); (6800, 6809);
   (6992, 7001); (7088, 7097); (7232, 7241); (7248, 7257); (42528, 42537);
   (43216, 43225); (43264, 43273); (43472, 43481); (43504, 43513);
   (43600, 43609); (44016, 44025); (65296, 65305); (66720, 66729);
   (68912, 68921); (69734, 69743); (69872, 69881); (69942, 69951);
   (70096, 70105); (70384, 70393); (70736, 70745); (70864, 70873);
   (71248, 71257); (71360, 71369); (71472, 71481); (71904, 71913);
   (72016, 72025); (72784, 72793); (73040, 73049); (73120, 73129);
   (92768, 92777); (92864, 92873); (93008, 93017); (120782, 120831);
   (123200, 123209); (123632, 123641); (125264, 125273);
   (130032, 130041)]%N.

(** Code points for which [str.isdigit] holds (numeric type Digit or
    Decimal, Unicode 14.0). *)
Definition digit_ranges : list (N * N) :=
  [(48, 57); (178, 179); (185, 185); (1632, 1641); (1776, 1785);
   (1984, 1993); (2406, 2415); (2534, 2543); (2662, 2671); (2790, 2799);
   (2918, 2927); (3046, 3055); (3174, 3183); (3302, 3311); (3430, 3439);
   (3558, 3567); (3664, 3673); (3792, 3801); (3872, 3881); (4160, 4169);
   (4240, 4249); (4969, 4977); (6112, 6121); (6160, 6169); (6470, 6479);
   (6608, 6618); (6784, 6793); (6800, 6809); (6992, 7001); (7088, 7097);
   (7232, 7241); (7248, 7257); (8304, 8304); (8308, 8313); (8320, 8329);
   (9312, 9320); (9332, 9340); (9352, 9360); (9450, 9450); (9461, 9469);
   (9471, 9471); (10102, 10110); (10112, 10120); (10122, 10130);
   (42528, 42537); (43216, 43225); (43264, 43273); (43472, 43481);
   (43504, 43513); (43600, 43609); (44016, 44025); (65296, 65305);
   (66720, 66729); (68160, 68163); (68912, 68921); (69216, 69224);
   (69714, 69722); (69734, 69743); (69872, 69881); (69942, 69951);
   (70096, 70105); (70384, 70393); (70736, 70745); (70864, 70873);
   (71248, 71257); (71360, 71369); (71472, 71481); (71904, 71913);
   (72016, 72025); (72784, 72793); (73040, 73049); (73120, 73129);
   (92768, 92777); (92864, 92873); (93008, 93017); (120782, 120831);
   (123200, 123209); (123632, 123641); (125264, 125273);
   (127232, 127242); (130032, 130041)]%N.

Definition isspace_char : char -> bool := in_ranges space_ranges.
Definition isdecimal_char : char -> bool := in_ranges decimal_ranges.
Definition isdigit_char : char -> bool := in_ranges digit_ranges.

(** [[A-Z]] and [[–—-]] of the section patterns. *)
Definition is_upper (c : char) : bool := (65 <=? c)%N && (c <=? 90)%N.
Definition is_dash (c : char) : bool :=
  (c =? EN_DASH)%N || (c =? EM_DASH)%N || (c =? HYPHEN)%N.

Module Py.

(** Truth value of a string: [bool(s)]. *)
Definition truthy (s : str) : bool :=
  match s with [] => false | _ :: _ => true end.

Fixpoint eqb (a b : str) : bool :=
  match a, b with
  | [], [] => true
  | x :: a', y :: b' => (x =? y)%N && eqb a' b'
  | _, _ => false
  end.

(** [a <= b] on strings: lexicographic on code points. *)
Fixpoint leb (a b : str) : bool :=
  match a, b with
  | [], _ => true
  | _ :: _, [] => false
  | x :: a', y :: b' =>
      if (x <? y)%N then true
      else if (x =? y)%N then leb a' b' else false
  end.

Fixpoint drop_while (p : char -> bool) (s : str) : str :=
  match s with
  | [] => []
  | c :: s' => if p c then drop_while p s' else s
  end.

Definition mem_char (c : char) (chars : str) : bool :=
  existsb (N.eqb c) chars.

(** [s.lstrip()], [s.rstrip()], [s.strip()]. *)
Definition lstrip (s : str) : str := drop_while isspace_char s.
Definition rstrip (s : str) : str := rev (drop_while isspace_char (rev s)).
Definition strip (s : str) : str := rstrip (lstrip s).

(** [s.lstrip(chars)], [s.rstrip(chars)]. *)
Definition lstrip_chars (chars s : str) : str :=
  drop_while (fun c => mem_char c chars) s.
Definition rstrip_chars (chars s : str) : str :=
  rev (drop_while (fun c => mem_char c chars) (rev s)).

(** [s.startswith(p)]. *)
Fixpoint startswith (p s : str) : bool :=
  match p, s with
  | [], _ => true
  | _ :: _, [] => false
  | x :: p', y :: s' => (x =? y)%N && startswith p' s'
  end.

(** [sub in s]. *)
Fixpoint contains (sub s : str) : bool :=
  startswith sub s ||
  match s with
  | [] => false
  | _ :: s' => contains sub s'
  end.

(** [s.split(sep)] for a non-empty [sep]: occurrences are taken left to
    right without overlap.  [skip] counts the characters of a separator
    occurrence still to be passed over; [cur] is the current part,
    reversed. *)
Fixpoint split_go (sep s : str) (skip : nat) (cur : str) : list str :=
  match s with
  | [] => [rev cur]
  | c :: s' =>
      match skip with
      | S k => split_go sep s' k cur
      | O =>
          if startswith sep s
          then rev cur :: split_go sep s' (length sep - 1) []
          else split_go sep s' 0 (c :: cur)
      end
  end.

Definition split (sep s : str) : list str := split_go sep s 0 [].

(** [s.split()]: split on runs of whitespace, no empty parts. *)
Fixpoint split_ws_go (s : str) (cur : str) : list str :=
  match s with
  | [] => match cur with [] => [] | _ :: _ => [rev cur] end
  | c :: s' =>
      if isspace_char c then
        match cur with
        | [] => split_ws_go s' []
        | _ :: _ => rev cur :: split_ws_go s' []
        end
      else split_ws_go s' (c :: cur)
  end.

Definition split_ws (s : str) : list str := split_ws_go s [].

(** [sep.join(parts)]. *)
Fixpoint join (sep : str) (parts : list str) : str :=
  match parts with
  | [] => []
  | [p] => p
  | p :: ps => p ++ sep ++ join sep ps
  end.

(** [s.isdigit()]. *)
Definition isdigit (s : str) : bool :=
  truthy s && forallb isdigit_char s.

(** [range(a, b)]. *)
Definition range (a b : nat) : list nat := seq a (b - a).

(** [x in set_of_strings]. *)
Definition mem (x : str) (l : list str) : bool := existsb (eqb x) l.

End Py.

(** ** Exceptions *)

Inductive exn := IndexError.

Inductive result (A : Type) : Type :=
| Ok (a : A)
| Raise (e : exn).
Arguments Ok {A} a.
Arguments Raise {A} e.

Definition bind {A B} (m : result A) (k : A -> result B) : result B :=
  match m with
  | Ok a => k a
  | Raise e => Raise e
  end.

Notation "x <- m ;; k" := (bind m (fun x => k))
  (at level 61, m at next level, right associativity).

(** [l[n]] for [n >= 0], and [l[-1]]. *)
Definition index {A} (l : list A) (n : nat) : result A :=
  match nth_error l n with
  | Some a => Ok a
  | None => Raise IndexError
  end.

(* ================================================================== *)
(** * Part 2: the heading patterns *)
(* ================================================================== *)

(** The patterns are applied with [re.match] to stripped lines.  Lines come
    from [text.split("\n")], so they hold no newline: on such strings [.]
    matches every character and [$] is the end of the string.  In the
    patterns quoted below, a blank is put between a star and the closing
    parenthesis that follows it. *)

(** The tail "\s+(.+)$": the greedy [\s+] takes the whole run of whitespace; when
    nothing is left for [.+] it gives back its last character, of which it
    must keep at least one. *)
Definition spaces_then_rest (r : str) : option str :=
  match r with
  | [] => None
  | c :: r0 =>
      if isspace_char c then
        match Py.lstrip r0 with
        | [] => match r0 with [] => None | _ :: _ => Some [last r0 c] end
        | x :: r' => Some (x :: r')
        end
      else None
  end.

(** The tail "\s*(.+)$": as above, but [\s*] may give back all it took. *)
Definition opt_spaces_then_rest (r : str) : option str :=
  match Py.lstrip r with
  | [] => match r with [] => None | c :: r0 => Some [last r0 c] end
  | x :: r' => Some (x :: r')
  end.

(** The optional prefix "^(?:######\s* )?": when the line starts with the
    marker, the group takes it and the whitespace after it.  The alternatives the matcher would try
    on failure (a shorter [\s*], or no marker at all) put a whitespace
    character or ["#"] under the [\d] that follows, so they never match. *)
Definition skip_heading_marker (s : str) : str :=
  if Py.startswith (lit "######") s then Py.lstrip (skipn 6 s) else s.

(** section_pattern = r"^# Section ([A-Z])\s*[–—-]\s*(.+)$"; the result is
    [(group(1), group(2))]. *)
Definition section_match (line : str) : option (str * str) :=
  if Py.startswith (lit "# Section ") line then
    match skipn 10 line with
    | l :: r =>
        if is_upper l then
          match Py.lstrip r with
          | d :: r2 =>
              if is_dash d then
                match opt_spaces_then_rest r2 with
                | Some nm => Some ([l], nm)
                | None => None
                end
              else None
          | [] => None
          end
        else None
    | [] => None
    end
  else None.

(** division_pattern = r"^(?:######\s* )?(\d{2})\s+(.+)$" *)
Definition division_match (line : str) : option (str * str) :=
  match skip_heading_marker line with
  | d1 :: d2 :: r =>
      if isdecimal_char d1 && isdecimal_char d2 then
        match spaces_then_rest r with
        | Some nm => Some ([d1; d2], nm)
        | None => None
        end
      else None
  | _ => None
  end.

(** group_pattern = r"^(?:######\s* )?(\d{2}\.\d{1})\s+(.+)$" *)
Definition group_match (line : str) : option (str * str) :=
  match skip_heading_marker line with
  | d1 :: d2 :: p :: d3 :: r =>
      if isdecimal_char d1 && isdecimal_char d2 && (p =? DOT)%N
         && isdecimal_char d3 then
        match spaces_then_rest r with
        | Some nm => Some ([d1; d2; p; d3], nm)
        | None => None
        end
      else None
  | _ => None
  end.

(** class_pattern = r"^(?:######\s* )?(\d{2}\.\d{2})\s+(.+)$" *)
Definition class_match (line : str) : option (str * str) :=
  match skip_heading_marker line with
  | d1 :: d2 :: p :: d3 :: d4 :: r =>
      if isdecimal_char d1 && isdecimal_char d2 && (p =? DOT)%N
         && isdecimal_char d3 && isdecimal_char d4 then
        match spaces_then_rest r with
        | Some nm => Some ([d1; d2; p; d3; d4], nm)
        | None => None
        end
      else None
  | _ => None
  end.

(** section_pattern = r"^# Section [A-Z][ \t]*[–—-]" of
    [split_nace_by_sections]: only whether it matches is used. *)
Definition section_heading (line : str) : bool :=
  Py.startswith (lit "# Section ") line &&
  match skipn 10 line with
  | l :: r =>
      is_upper l &&
      match Py.drop_while (fun c => (c =? SPACE)%N || (c =? TAB)%N) r with
      | d :: _ => is_dash d
      | [] => false
      end
  | [] => false
  end.

(* ================================================================== *)
(** * Part 3: parse_nace_activities *)
(* ================================================================== *)

(** The dictionaries [current_section], [current_division] and
    [current_group]. *)
Module Ancestor.
Record t := mk { code : str; name : str; description : str }.
Definition empty : t := mk [] [] [].
End Ancestor.

(** An element of [included_activities] / [excluded_activities]. *)
Record entry := mk_entry { activity : str; subactivities : list str }.

(** The dictionary built for a class heading. *)
Record record := mk_record {
  section_code : str;
  section_name : str;
  section_description : str;
  division_code : str;
  division_name : str;
  division_description : str;
  group_code : str;
  group_name : str;
  group_description : str;
  class_code : str;
  class_name : str;
  class_description : str;
  included_activities : list entry;
  excluded_activities : list entry
}.

Definition set_included (a : record) (l : list entry) : record :=
  mk_record (section_code a) (section_name a) (section_description a)
    (division_code a) (division_name a) (division_description a)
    (group_code a) (group_name a) (group_description a)
    (class_code a) (class_name a) (class_description a)
    l (excluded_activities a).

Definition set_excluded (a : record) (l : list entry) : record :=
  mk_record (section_code a) (section_name a) (section_description a)
    (division_code a) (division_name a) (division_description a)
    (group_code a) (group_name a) (group_description a)
    (class_code a) (class_name a) (class_description a)
    (included_activities a) l.

(** The forward scan for a description, shared by the section, division and
    group branches:
    [for j in range(i + 1, min(i + 10, len(lines))): ...; break]. *)
Fixpoint scan_loop (lines : list str) (marker : str) (js : list nat)
  : result str :=
  match js with
  | [] => Ok []
  | j :: js' =>
      let desc_text := Py.join [SPACE] (firstn 3 (skipn j lines)) in
      if Py.contains marker desc_text then
        after <- index (Py.split marker desc_text) 1 ;;
        first <- index (Py.split [LF] after) 0 ;;
        Ok (Py.strip first)
      else scan_loop lines marker js'
  end.

Definition scan_description (lines : list str) (i : nat) (marker : str)
  : result str :=
  scan_loop lines marker (Py.range (i + 1) (Nat.min (i + 10) (length lines))).

(** [mode] of the activity sub-parse ([None] is [option]'s [None]). *)
Inductive mode := includes | excludes.

(** [current_activity] is [None] or a string; its truth value. *)
Definition truthy_opt (o : option str) : bool :=
  match o with
  | Some s => Py.truthy s
  | None => false
  end.

(** [activity["included_activities"].append({"activity": a,
    "subactivities": []})], or the same on ["excluded_activities"]. *)
Definition append_activity (m : mode) (a : str) (act : record) : record :=
  match m with
  | includes =>
      set_included act (included_activities act ++ [mk_entry a []])
  | excludes =>
      set_excluded act (excluded_activities act ++ [mk_entry a []])
  end.

(** [l[-1]["subactivities"].append(sub)]: [l[-1]] raises [IndexError] on the
    empty list. *)
Definition append_to_last (l : list entry) (sub : str) : result (list entry) :=
  match rev l with
  | [] => Raise IndexError
  | e :: before =>
      Ok (rev before ++ [mk_entry (activity e) (subactivities e ++ [sub])])
  end.

Definition append_subactivity (m : mode) (sub : str) (act : record)
  : result record :=
  match m with
  | includes =>
      l <- append_to_last (included_activities act) sub ;;
      Ok (set_included act l)
  | excludes =>
      l <- append_to_last (excluded_activities act) sub ;;
      Ok (set_excluded act l)
  end.

(** The stop test of the activity sub-parse:
    [(re.match(class_pattern, next_line) and len(next_line.split()[0]) == 5)
     or next_line.startswith("#")]. *)
Definition block_ends (next_line : str) : result bool :=
  match class_match next_line with
  | Some _ =>
      tok <- index (Py.split_ws next_line) 0 ;;
      Ok ((length tok =? 5) || Py.startswith [HASH] next_line)
  | None => Ok (Py.startswith [HASH] next_line)
  end.

(** The activity sub-parse: the [while j < len(lines) and j < i + 50] loop,
    over the indices [js] it visits. *)
Fixpoint activity_loop (lines : list str) (js : list nat)
    (md : option mode) (current_activity : option str) (act : record)
  : result record :=
  match js with
  | [] => Ok act
  | j :: js' =>
      let next_line := Py.strip (nth j lines []) in
      stop <- block_ends next_line ;;
      if stop then Ok act
      else
        let is_inc := Py.contains (lit "This class includes:") next_line in
        let is_exc := Py.contains (lit "This class excludes:") next_line in
        let md' := if is_inc then Some includes
                   else if is_exc then Some excludes else md in
        if negb is_inc && negb is_exc && negb (Py.truthy next_line) then
          activity_loop lines js' md current_activity act
        else
          match md' with
          | None => activity_loop lines js' md' current_activity act
          | Some m =>
              if Py.startswith [HYPHEN] next_line then
                let a := Py.rstrip_chars [COLON]
                           (Py.lstrip_chars [HYPHEN; SPACE] next_line) in
                activity_loop lines js' md' (Some a) (append_activity m a act)
              else if Py.startswith [STAR] next_line
                      && truthy_opt current_activity then
                let sub := Py.strip (Py.lstrip_chars [STAR; SPACE] next_line) in
                act' <- append_subactivity m sub act ;;
                activity_loop lines js' md' current_activity act'
              else activity_loop lines js' md' current_activity act
          end
  end.

(** The local variables of [parse_nace_activities] that live across
    iterations of the main loop. *)
Record pstate := mk_pstate {
  activities : list record;
  processed_codes : list str;
  current_section : Ancestor.t;
  current_division : Ancestor.t;
  current_group : Ancestor.t
}.

Definition init_state : pstate :=
  mk_pstate [] [] Ancestor.empty Ancestor.empty Ancestor.empty.

(** The activity block of the class heading at line [i]. *)
Definition parse_activity_block (lines : list str) (i : nat) (act : record)
  : result record :=
  activity_loop lines (Py.range (i + 1) (Nat.min (length lines) (i + 50)))
    None None act.

(** The class branch, once [class_pattern] has matched. *)
Definition class_branch (lines : list str) (i : nat) (st : pstate)
    (class_code class_name : str) : result pstate :=
  if (length class_code =? 5)
     && (nth 2 class_code 0 =? DOT)%N
     && negb (Py.mem class_code (processed_codes st)) then
    division_code <- index (Py.split [DOT] class_code) 0 ;;
    let group_code := firstn 4 class_code in
    let current_division :=
      if negb (Py.eqb division_code (Ancestor.code (current_division st)))
      then Ancestor.mk division_code [] []
      else current_division st in
    let current_group :=
      if negb (Py.eqb group_code (Ancestor.code (current_group st)))
      then Ancestor.mk group_code [] []
      else current_group st in
    if Py.truthy (Ancestor.code (current_section st)) then
      let activity :=
        mk_record
          (Ancestor.code (current_section st))
          (Ancestor.name (current_section st))
          (Ancestor.description (current_section st))
          division_code
          (Ancestor.name current_division)
          (Ancestor.description current_division)
          group_code
          (Ancestor.name current_group)
          (Ancestor.description current_group)
          class_code class_name [] [] [] in
      activity' <- parse_activity_block lines i activity ;;
      Ok (mk_pstate (activities st ++ [activity'])
            (class_code :: processed_codes st)
            (current_section st) current_division current_group)
    else
      Ok (mk_pstate (activities st) (processed_codes st)
            (current_section st) current_division current_group)
  else Ok st.

(** One iteration of the main loop, at line index [i]. *)
Definition step (lines : list str) (i : nat) (st : pstate) : result pstate :=
  let line := Py.strip (nth i lines []) in
  if negb (Py.truthy line) || Py.isdigit line then Ok st
  else
    match section_match line with
    | Some (c, nm) =>
        d <- scan_description lines i (lit "This section includes") ;;
        Ok (mk_pstate (activities st) (processed_codes st)
              (Ancestor.mk c nm d) (current_division st) (current_group st))
    | None =>
    match division_match line with
    | Some (div_code, nm) =>
        if (length div_code =? 2) && Py.isdigit div_code then
          d <- scan_description lines i (lit "This division includes") ;;
          Ok (mk_pstate (activities st) (processed_codes st)
                (current_section st) (Ancestor.mk div_code nm d)
                (current_group st))
        else Ok st
    | None =>
    match group_match line with
    | Some (group_code, nm) =>
        prefix <- index (Py.split [DOT] group_code) 0 ;;
        if Py.eqb prefix (Ancestor.code (current_division st)) then
          d <- scan_description lines i (lit "This group includes") ;;
          Ok (mk_pstate (activities st) (processed_codes st)
                (current_section st) (current_division st)
                (Ancestor.mk group_code nm d))
        else Ok st
    | None =>
    match class_match line with
    | Some (class_code, class_name) =>
        class_branch lines i st class_code class_name
    | None => Ok st
    end end end end.

(** The main loop [while i < len(lines)]: every path through the body ends
    in [i += 1], so it visits [range(0, len(lines))] in order. *)
Fixpoint main_loop (lines : list str) (idxs : list nat) (st : pstate)
  : result pstate :=
  match idxs with
  | [] => Ok st
  | i :: idxs' =>
      st' <- step lines i st ;;
      main_loop lines idxs' st'
  end.

(** [activities.sort(key=lambda x: x["class_code"])]: a stable sort on the
    key, here by insertion. *)
Fixpoint insert_by_class_code (a : record) (l : list record) : list record :=
  match l with
  | [] => [a]
  | b :: l' =>
      if Py.leb (class_code a) (class_code b) then a :: l
      else b :: insert_by_class_code a l'
  end.

Fixpoint sort_by_class_code (l : list record) : list record :=
  match l with
  | [] => []
  | a :: l' => insert_by_class_code a (sort_by_class_code l')
  end.

Definition parse_lines (lines : list str) : result pstate :=
  main_loop lines (Py.range 0 (length lines)) init_state.

Definition parse_nace_activities (text : str) : result (list record) :=
  st <- parse_lines (Py.split [LF] text) ;;
  Ok (sort_by_class_code (activities st)).

(** A text given line by line. *)
Definition text_of (lines : list string) : str :=
  Py.join [LF] (map lit lines).

Definition spec_scenario : str := text_of
  [ "# Section A - Agriculture";
    "This section includes farming activities.";
    "01 Crop production";
    "This division includes growing of crops.";
    "01.1 Growing of non-perennial crops";
    "01.11 Growing of cereals";
    "This class includes:";
    "- Growing of wheat";
    "* Winter wheat";
    "This class excludes:";
    "- Growing of sugar cane";
    "01.12 Growing of rice" ]%string.

(* ================================================================== *)
(** * Part 4: validate_nace_activities *)
(* ================================================================== *)

(** [set(...)] of strings, as a duplicate-free list. *)
Fixpoint to_set (l : list str) : list str :=
  match l with
  | [] => []
  | x :: l' => if Py.mem x l' then to_set l' else x :: to_set l'
  end.

(** [sorted(...)] of strings. *)
Fixpoint insert_str (x : str) (l : list str) : list str :=
  match l with
  | [] => [x]
  | y :: l' => if Py.leb x y then x :: l else y :: insert_str x l'
  end.

Definition sorted (l : list str) : list str := fold_right insert_str [] l.

(** [section_counts[section] = section_counts.get(section, 0) + 1] on a
    dictionary kept as an association list. *)
Fixpoint count_up (section : str) (d : list (str * nat)) : list (str * nat) :=
  match d with
  | [] => [(section, 1)]
  | (k, n) :: d' =>
      if Py.eqb k section then (k, n + 1) :: d'
      else (k, n) :: count_up section d'
  end.

Definition dict_get (d : list (str * nat)) (k : str) : nat :=
  match find (fun kv => Py.eqb (fst kv) k) d with
  | Some kv => snd kv
  | None => 0
  end.

(** What the function prints, one constructor per [print] call, holding the
    values interpolated in its f-string. *)
Inductive printed :=
| print_total (total_classes : nat)
| print_expected
| print_breakdown
| print_sections (n : nat) (all : list str)
| print_divisions (n : nat) (first5 : list str)
| print_groups (n : nat) (first5 : list str)
| print_classes (n : nat) (first5 : list str)
| print_per_section
| print_section_count (section : str) (n : nat).

Definition validate_nace_activities (activities : list record)
  : list printed * bool :=
  let total_classes := length activities in
  let sections := to_set (map section_code activities) in
  let divisions := to_set (map division_code activities) in
  let groups := to_set (map group_code activities) in
  let classes := to_set (map class_code activities) in
  let section_counts :=
    fold_left (fun d a => count_up (section_code a) d) activities [] in
  ([ print_total total_classes;
     print_expected;
     print_breakdown;
     print_sections (length sections) (sorted sections);
     print_divisions (length divisions) (firstn 5 (sorted divisions));
     print_groups (length groups) (firstn 5 (sorted groups));
     print_classes (length classes) (firstn 5 (sorted classes));
     print_per_section ]
   ++ map (fun k => print_section_count k (dict_get section_counts k))
        (sorted (map fst section_counts)),
   total_classes =? 615).

(* ================================================================== *)
(** * Part 5: split_nace_by_sections *)
(* ================================================================== *)

(** An element of the returned list. *)
Module Segment.
Record t := mk { name : str; content : str }.
End Segment.

(** The local variables of the loop, and what was printed. *)
Record sstate := mk_sstate {
  sections : list Segment.t;
  split_section : option str;        (* current_section *)
  current_content : list str;
  stdout : list str
}.

(** [for separator in ['–', '—', '-']: if separator in line: ...; break] *)
Fixpoint try_separators (seps : list char) (line : str)
    (current_section : option str) : result (option str) :=
  match seps with
  | [] => Ok current_section
  | separator :: seps' =>
      if Py.contains [separator] line then
        before <- index (Py.split [separator] line) 0 ;;
        Ok (Some (Py.strip before))
      else try_separators seps' line current_section
  end.

(** [f"Found section: {current_section}"] *)
Definition found_section (current_section : option str) : str :=
  lit "Found section: " ++
  match current_section with
  | Some s => s
  | None => lit "None"
  end.

(** [sections.append({...})] under [if current_section:]. *)
Definition save_section (st : sstate) : list Segment.t :=
  match split_section st with
  | Some nm =>
      if Py.truthy nm then
        sections st ++ [Segment.mk nm (Py.join [LF] (current_content st))]
      else sections st
  | None => sections st
  end.

(** The body of [for line in lines]. *)
Definition split_step (st : sstate) (raw : str) : result sstate :=
  let line := Py.strip raw in
  if section_heading line then
    cs <- try_separators [EN_DASH; EM_DASH; HYPHEN] line (split_section st) ;;
    Ok (mk_sstate (save_section st) cs [line]
          (stdout st ++ [found_section cs]))
  else if truthy_opt (split_section st) then
    Ok (mk_sstate (sections st) (split_section st)
          (current_content st ++ [line]) (stdout st))
  else Ok st.

Fixpoint split_loop (lines : list str) (st : sstate) : result sstate :=
  match lines with
  | [] => Ok st
  | raw :: lines' =>
      st' <- split_step st raw ;;
      split_loop lines' st'
  end.

(** [if current_section and current_content: sections.append({...})] *)
Definition final_sections (st : sstate) : list Segment.t :=
  match current_content st with
  | [] => sections st
  | _ :: _ => save_section st
  end.

(** The result is the returned list paired with the printed lines. *)
Definition split_nace_by_sections (text : str)
  : result (list Segment.t * list str) :=
  st <- split_loop (Py.split [LF] text) (mk_sstate [] None [] []) ;;
  Ok (final_sections st, stdout st).

(** ** The segmenter as the specification words it *)

Definition is_section_line (l : str) : bool := section_heading (Py.strip l).

Fixpoint take_while {A} (p : A -> bool) (l : list A) : list A :=
  match l with
  | [] => []
  | x :: l' => if p x then x :: take_while p l' else []
  end.

(** One block per section-heading line: that line and the lines after it up
    to the next section heading; lines before the first heading belong to no
    block. *)
Fixpoint section_blocks (lines : list str) : list (list str) :=
  match lines with
  | [] => []
  | l :: rest =>
      if is_section_line l
      then (l :: take_while (fun x => negb (is_section_line x)) rest)
             :: section_blocks rest
      else section_blocks rest
  end.

(** The text of [s] before the first occurrence of the character [sep]. *)
Fixpoint text_before (sep : char) (s : str) : str :=
  match s with
  | [] => []
  | c :: s' => if (c =? sep)%N then [] else c :: text_before sep s'
  end.

(** The name of a heading: the text before the dash separator, trying "–",
    then "—", then "-", without the surrounding whitespace. *)
Definition name_before_dash (heading : str) : str :=
  let h := Py.strip heading in
  if Py.mem_char EN_DASH h then Py.strip (text_before EN_DASH h)
  else if Py.mem_char EM_DASH h then Py.strip (text_before EM_DASH h)
  else Py.strip (text_before HYPHEN h).

(** A block as a segment; [keep] is what is kept of each line. *)
Definition segment_of_block (keep : str -> str) (b : list str) : Segment.t :=
  Segment.mk (name_before_dash (hd [] b)) (Py.join [LF] (map keep b)).

(** The contents hold the lines as they are in the text. *)
Definition segments_exact (lines : list str) : list Segment.t :=
  map (segment_of_block (fun l => l)) (section_blocks lines).

(** The contents hold the lines without their surrounding whitespace. *)
Definition segments_stripped (lines : list str) : list Segment.t :=
  map (segment_of_block Py.strip) (section_blocks lines).

Definition segmenter_example : str := text_of
  [ "preamble";
    "# Section A - Agriculture";
    "  01 Crop production";
    "";
    "  # Section B - Mining and quarrying  ";
    "05 Mining of coal" ]%string.

(* ================================================================== *)
(** * Part 5b: write_section_files, the file names *)
(* ================================================================== *)

(** [s.replace(old, new)] for a non-empty [old]: the occurrences of [old],
    taken left to right without overlap, are those [split] cuts at. *)
Definition replace (old new s : str) : str := Py.join new (Py.split old s).

(** [filename = section["name"].lower().replace("Section ", "") + ".md"];
    [str.lower], with its Unicode case tables, is a parameter. *)
Definition section_filename (lower : str -> str) (name : str) : str :=
  replace (lit "Section ") [] (lower name) ++ lit ".md".

(** [str.lower] on ASCII text. *)
Definition lower_ascii (s : str) : str :=
  map (fun c => if is_upper c then (c + 32)%N else c) s.

(* ================================================================== *)
(** * Example documents *)
(* ================================================================== *)

(** What a call returned, [[]] if it raised. *)
Definition returned {A} (r : result (list A)) : list A :=
  match r with
  | Ok l => l
  | Raise _ => []
  end.

Definition blank_record : record :=
  mk_record [] [] [] [] [] [] [] [] [] [] [] [] [] [].

Definition spec_scenario_records : list record :=
  Eval vm_compute in returned (parse_nace_activities spec_scenario).

Definition spec_scenario_first : record :=
  Eval vm_compute in hd blank_record spec_scenario_records.

(** The same class heading twice under a section. *)
Definition repeated_heading : str := text_of
  [ "# Section A - Agriculture";
    "01.11 Growing of cereals";
    "01.12 Growing of rice";
    "01.11 Growing of cereals (again)" ]%string.

Definition repeated_heading_records : list record :=
  Eval vm_compute in returned (parse_nace_activities repeated_heading).

(** Class headings in descending order of their codes. *)
Definition unordered_headings : str := text_of
  [ "# Section C - Manufacturing";
    "10.20 Processing of fish";
    "10.11 Processing of meat";
    "# Section A - Agriculture";
    "01.11 Growing of cereals" ]%string.

Definition unordered_headings_records : list record :=
  Eval vm_compute in returned (parse_nace_activities unordered_headings).

(** A class heading before any section heading, and again after one. *)
Definition orphan_then_section : str := text_of
  [ "01.11 Growing of cereals";
    "# Section A - Agriculture";
    "01.11 Growing of cereals" ]%string.

Definition orphan_then_section_records : list record :=
  Eval vm_compute in returned (parse_nace_activities orphan_then_section).

(** An included activity, then a sub-activity line right after the switch
    to the excluded activities. *)
Definition star_after_switch : str := text_of
  [ "# Section A - Agriculture";
    "01.11 Growing of cereals";
    "This class includes:";
    "- Growing of wheat";
    "This class excludes:";
    "* Winter wheat" ]%string.

(** A section whose description line is followed by headings. *)
Definition section_with_description : str := text_of
  [ "# Section A - Agriculture";
    "This section includes farming.";
    "01 Crop production";
    "01.11 Growing of cereals" ]%string.

(** A section with an indented line. *)
Definition indented_document : str := text_of
  [ "# Section A - Agriculture";
    "  01 Crop production" ]%string.

Definition returned_segments (r : result (list Segment.t * list str))
  : list Segment.t :=
  match r with
  | Ok (l, _) => l
  | Raise _ => []
  end.

(* ================================================================== *)
(** * Auxiliary notions used in the statements *)
(* ================================================================== *)

(** Two records that differ at most in their activity lists. *)
Definition same_heading (a b : record) : Prop :=
  section_code a = section_code b /\
  section_name a = section_name b /\
  section_description a = section_description b /\
  division_code a = division_code b /\
  division_name a = division_name b /\
  division_description a = division_description b /\
  group_code a = group_code b /\
  group_name a = group_name b /\
  group_description a = group_description b /\
  class_code a = class_code b /\
  class_name a = class_name b /\
  class_description a = class_description b.

(** The line the main loop looks at in iteration [i]:
    [lines[i].strip()]. *)
Definition line_at (lines : list str) (i : nat) : str :=
  Py.strip (nth i lines []).

(** The order of the output: by class code. *)
Definition class_code_le (a b : record) : Prop :=
  Py.leb (class_code a) (class_code b) = true.

(** The record list and the set of processed codes hold the same class
    codes, each once. *)
Definition unique_inv (st : pstate) : Prop :=
  NoDup (map class_code (activities st)) /\
  (forall r, In r (activities st) -> In (class_code r) (processed_codes st)) /\
  (forall c, In c (processed_codes st) ->
     exists r, In r (activities st) /\ class_code r = c).

(** The codes of a record: two digits, a dot, two digits, with the division
    and group codes as prefixes. *)
Definition hierarchy (r : record) : Prop :=
  exists d1 d2 d3 d4,
    isdecimal_char d1 = true /\ isdecimal_char d2 = true /\
    isdecimal_char d3 = true /\ isdecimal_char d4 = true /\
    class_code r = [d1; d2; DOT; d3; d4] /\
    division_code r = [d1; d2] /\
    group_code r = [d1; d2; DOT; d3].

(** No section heading among the first [i] lines. *)
Definition no_section_before (lines : list str) (i : nat) : Prop :=
  forall j, j < i -> section_match (line_at lines j) = None.

(** The current section is the one of the last section heading seen. *)
Definition section_inv (lines : list str) (i : nat) (st : pstate) : Prop :=
  (Ancestor.code (current_section st) = [] /\ no_section_before lines i) \/
  (exists s, s < i /\
     section_match (line_at lines s) =
       Some (Ancestor.code (current_section st),
             Ancestor.name (current_section st)) /\
     forall j, s < j < i -> section_match (line_at lines j) = None).

(** The record [r] stems from a class heading among the first [i] lines,
    and its section from the last section heading before it. *)
Definition origin (lines : list str) (i : nat) (r : record) : Prop :=
  exists s c, s < c < i /\
    section_match (line_at lines s) = Some (section_code r, section_name r) /\
    (forall j, s < j < c -> section_match (line_at lines j) = None) /\
    class_match (line_at lines c) = Some (class_code r, class_name r).

Definition origin_inv (lines : list str) (i : nat) (st : pstate) : Prop :=
  section_inv lines i st /\ forall r, In r (activities st) -> origin lines i r.

(** What [split_nace_by_sections] returns and has printed, from the final
    state of its loop. *)
Definition finish (st : sstate) : list Segment.t * list str :=
  (final_sections st, stdout st).

(** The line printed for a segment. *)
Definition found_line (sg : Segment.t) : str :=
  found_section (Some (Segment.name sg)).

(** No line of the text starts, once stripped, with a star. *)
Definition no_star_line (lines : list str) : Prop :=
  forall j, Py.startswith [STAR] (Py.strip (nth j lines [])) = false.

(** The recovery of the class branch: keep the current division (or group)
    when its code is [c], else start a nameless one with code [c]. *)
Definition reset_to (c : str) (cur : Ancestor.t) : Ancestor.t :=
  if negb (Py.eqb c (Ancestor.code cur)) then Ancestor.mk c [] [] else cur.

(** The record the class branch builds before the activity sub-parse. *)
Definition new_record (st : pstate) (division_code group_code : str)
    (class_code class_name : str) : record :=
  mk_record
    (Ancestor.code (current_section st))
    (Ancestor.name (current_section st))
    (Ancestor.description (current_section st))
    division_code
    (Ancestor.name (reset_to division_code (current_division st)))
    (Ancestor.description (reset_to division_code (current_division st)))
    group_code
    (Ancestor.name (reset_to group_code (current_group st)))
    (Ancestor.description (reset_to group_code (current_group st)))
    class_code class_name [] [] [].

(** A document with class headings and activity lines, but no section
    heading. *)
Definition headless_document : str := text_of
  [ "01 Crop production";
    "01.11 Growing of cereals";
    "This class includes:";
    "- Growing of wheat";
    "This class excludes:";
    "* Winter wheat" ]%string.

(** A section heading among the first [k] lines. *)
Definition section_seen (lines : list str) (k : nat) : Prop :=
  exists s, s < k /\ section_match (line_at lines s) <> None.

(** The record [r] stems from the first heading of its class that comes
    after a section heading. *)
Definition first_origin (lines : list str) (i : nat) (r : record) : Prop :=
  exists c, c < i /\
    class_match (line_at lines c) = Some (class_code r, class_name r) /\
    section_seen lines c /\
    forall k nm, k < c ->
      class_match (line_at lines k) = Some (class_code r, nm) ->
      no_section_before lines k.

(** Every class heading met after a section heading has its code among the
    processed codes, and every record stems from a first heading. *)
Definition first_inv (lines : list str) (i : nat) (st : pstate) : Prop :=
  section_inv lines i st /\
  (forall k c nm, k < i ->
     class_match (line_at lines k) = Some (c, nm) ->
     section_seen lines k -> In c (processed_codes st)) /\
  (forall r, In r (activities st) -> first_origin lines i r).

(** The ancestor [a] has no name and no description, or has the code and
    name that [matcher] captured on some line and the description that the
    forward scan for [marker] found from that line. *)
Definition named_or_blank (matcher : str -> option (str * str))
    (marker : str) (lines : list str) (a : Ancestor.t) : Prop :=
  (Ancestor.name a = [] /\ Ancestor.description a = []) \/
  exists k,
    matcher (line_at lines k) = Some (Ancestor.code a, Ancestor.name a) /\
    scan_description lines k marker = Ok (Ancestor.description a).

Definition record_provenance (lines : list str) (r : record) : Prop :=
  (exists s,
     section_match (line_at lines s) = Some (section_code r, section_name r) /\
     scan_description lines s (lit "This section includes")
       = Ok (section_description r)) /\
  named_or_blank division_match (lit "This division includes") lines
    (Ancestor.mk (division_code r) (division_name r)
       (division_description r)) /\
  named_or_blank group_match (lit "This group includes") lines
    (Ancestor.mk (group_code r) (group_name r) (group_description r)).

Definition provenance_inv (lines : list str) (st : pstate) : Prop :=
  (Ancestor.code (current_section st) = [] \/
   exists s,
     section_match (line_at lines s)
       = Some (Ancestor.code (current_section st),
               Ancestor.name (current_section st)) /\
     scan_description lines s (lit "This section includes")
       = Ok (Ancestor.description (current_section st))) /\
  named_or_blank division_match (lit "This division includes") lines
    (current_division st) /\
  named_or_blank group_match (lit "This group includes") lines
    (current_group st) /\
  (forall r, In r (activities st) -> record_provenance lines r).

(** The string [s] does not start (does not end) with a character of the
    class [p]. *)
Definition no_leading (p : char -> bool) (s : str) : Prop :=
  match s with
  | c :: _ => p c = false
  | [] => True
  end.

Definition no_trailing (p : char -> bool) (s : str) : Prop :=
  no_leading p (rev s).

(** An activity text: no "-" or blank in front, no ":" at the end. *)
Definition clean_activity (a : str) : Prop :=
  no_leading (fun c => Py.mem_char c [HYPHEN; SPACE]) a /\
  no_trailing (fun c => Py.mem_char c [COLON]) a.

(** A sub-activity text: no whitespace around it. *)
Definition clean_text (sub : str) : Prop :=
  no_leading isspace_char sub /\ no_trailing isspace_char sub.

Definition clean_entry (e : entry) : Prop :=
  clean_activity (activity e) /\ Forall clean_text (subactivities e).

Definition clean_lists (r : record) : Prop :=
  Forall clean_entry (included_activities r) /\
  Forall clean_entry (excluded_activities r).

Definition clean_record (r : record) : Prop :=
  class_description r = [] /\ clean_lists r.

(** The order on strings, as a relation. *)
Definition str_le (a b : str) : Prop := Py.leb a b = true.

(** [l] lists the distinct elements of [src] in ascending order. *)
Definition distinct_sorted (l src : list str) : Prop :=
  NoDup l /\ StronglySorted str_le l /\ (forall x, In x l <-> In x src).

(** The number of records whose section code is [k]. *)
Definition classes_in_section (k : str) (activities : list record) : nat :=
  length (filter (fun a => Py.eqb (section_code a) k) activities).

(** What is left of a list after its longest prefix of elements that
    satisfy [p]. *)
Fixpoint skip_while {A} (p : A -> bool) (l : list A) : list A :=
  match l with
  | [] => []
  | x :: l' => if p x then skip_while p l' else l
  end.

(** A document of two sections, with no whitespace around its lines. *)
Definition two_sections : str := text_of
  [ "# Section A - Agriculture";
    "01 Crop production";
    "# Section B - Mining and quarrying";
    "";
    "05 Mining of coal" ]%string.

(** Two tables of ranges with no common code point. *)
Definition ranges_disjoint (rs1 rs2 : list (N * N)) : bool :=
  forallb (fun r1 =>
    forallb (fun r2 => (snd r1 <? fst r2)%N || (snd r2 <? fst r1)%N) rs2) rs1.

(* ================================================================== *)
(** * Part 6: facts about the string primitives *)
(* ================================================================== *)

Example split_trailing_separator :
  Py.split (lit ",") (lit "a,b,") = [lit "a"; lit "b"; lit ""].
Proof. reflexivity. Qed.

Example split_adjacent_separators :
  Py.split (lit "ab") (lit "xabababy") = [lit "x"; lit ""; lit ""; lit "y"].
Proof. reflexivity. Qed.

Example strip_both_ends : Py.strip (lit "  a b  ") = lit "a b".
Proof. reflexivity. Qed.

Example section_match_en_dash :
  section_match (lit "# Section A " ++ [EN_DASH] ++ lit " Agriculture")
  = Some (lit "A", lit "Agriculture").
Proof. reflexivity. Qed.

Example class_match_with_marker :
  class_match (lit "###### 01.11 Growing of cereals")
  = Some (lit "01.11", lit "Growing of cereals").
Proof. reflexivity. Qed.

Example division_match_rejects_class :
  division_match (lit "01.11 Growing of cereals") = None.
Proof. reflexivity. Qed.

Lemma eqb_eq (a b : str) : Py.eqb a b = true <-> a = b.
Proof.
  revert b; induction a as [|x a IH]; intros [|y b]; simpl;
    try (split; [discriminate | congruence]); try tauto.
  rewrite andb_true_iff, N.eqb_eq, IH.
  split; [intros [-> ->]; reflexivity | intros [= -> ->]; auto].
Qed.

Lemma eqb_refl (a : str) : Py.eqb a a = true.
Proof. apply eqb_eq; reflexivity. Qed.

Lemma eqb_neq (a b : str) : Py.eqb a b = false <-> a <> b.
Proof.
  destruct (Py.eqb a b) eqn:E.
  - apply eqb_eq in E. split; [discriminate | congruence].
  - split; [intros _ H; apply eqb_eq in H; congruence | reflexivity].
Qed.

Lemma mem_In (x : str) (l : list str) : Py.mem x l = true <-> In x l.
Proof.
  unfold Py.mem. rewrite existsb_exists. split.
  - intros [y [Hy E]]. apply eqb_eq in E. subst; assumption.
  - intros H. exists x. split; [assumption | apply eqb_refl].
Qed.

Lemma mem_not_In (x : str) (l : list str) : Py.mem x l = false <-> ~ In x l.
Proof.
  rewrite <- mem_In. destruct (Py.mem x l); split; congruence.
Qed.

(** The order on strings is total and transitive. *)
Lemma leb_total (a b : str) : Py.leb a b = true \/ Py.leb b a = true.
Proof.
  revert b; induction a as [|x a IH]; intros [|y b]; simpl; auto.
  destruct (N.ltb_spec x y), (N.ltb_spec y x); auto; try lia.
  assert (x = y) by lia; subst. rewrite N.eqb_refl. apply IH.
Qed.

Lemma leb_trans (a b c : str) :
  Py.leb a b = true -> Py.leb b c = true -> Py.leb a c = true.
Proof.
  revert b c; induction a as [|x a IH]; intros [|y b] [|z c]; simpl;
    auto; try discriminate.
  destruct (N.ltb_spec x y), (N.ltb_spec y z), (N.ltb_spec x z);
    auto; try lia.
  - destruct (N.eqb_spec y z); [lia | discriminate].
  - destruct (N.eqb_spec x y); [lia | discriminate].
  - destruct (N.eqb_spec x y); [|discriminate].
    destruct (N.eqb_spec y z); [|discriminate]. subst.
    rewrite N.eqb_refl. apply IH.
Qed.

Lemma ranges_disjoint_sound rs1 rs2 c :
  ranges_disjoint rs1 rs2 = true ->
  in_ranges rs1 c = true -> in_ranges rs2 c = false.
Proof.
  intros D H1. destruct (in_ranges rs2 c) eqn:H2; [|reflexivity].
  unfold in_ranges in *.
  apply existsb_exists in H1 as [r1 [I1 B1]].
  apply existsb_exists in H2 as [r2 [I2 B2]].
  unfold ranges_disjoint in D. rewrite forallb_forall in D.
  specialize (D r1 I1). rewrite forallb_forall in D. specialize (D r2 I2).
  apply andb_true_iff in B1 as [A1 A2]. apply andb_true_iff in B2 as [A3 A4].
  apply N.leb_le in A1, A2, A3, A4.
  apply orb_true_iff in D as [D|D]; apply N.ltb_lt in D; lia.
Qed.

Lemma decimal_not_space c :
  isdecimal_char c = true -> isspace_char c = false.
Proof.
  apply ranges_disjoint_sound. vm_compute. reflexivity.
Qed.

Lemma decimal_not_dot c : isdecimal_char c = true -> (DOT =? c)%N = false.
Proof.
  intros H. apply N.eqb_neq. intros <-. vm_compute in H. discriminate.
Qed.

Lemma decimal_not_hash c : isdecimal_char c = true -> (HASH =? c)%N = false.
Proof.
  intros H. apply N.eqb_neq. intros <-. vm_compute in H. discriminate.
Qed.

(** [s.split(sep)] never returns the empty list. *)
Lemma split_go_nonempty sep s k cur : Py.split_go sep s k cur <> [].
Proof.
  revert k cur; induction s as [|c s IH]; intros k cur; simpl.
  - discriminate.
  - destruct k; [|apply IH].
    destruct (Py.startswith sep (c :: s)); [discriminate | apply IH].
Qed.

Lemma index_split_0 sep s :
  exists p, index (Py.split sep s) 0 = Ok p /\ hd [] (Py.split sep s) = p.
Proof.
  unfold Py.split, index.
  destruct (Py.split_go sep s 0 []) as [|p ps] eqn:E.
  - exfalso. eapply split_go_nonempty; eassumption.
  - exists p. simpl. auto.
Qed.

(** The shape of what the heading patterns capture. *)
Lemma class_match_shape line c nm :
  class_match line = Some (c, nm) ->
  exists d1 d2 d3 d4 r,
    skip_heading_marker line = d1 :: d2 :: DOT :: d3 :: d4 :: r /\
    c = [d1; d2; DOT; d3; d4] /\
    isdecimal_char d1 = true /\ isdecimal_char d2 = true /\
    isdecimal_char d3 = true /\ isdecimal_char d4 = true /\
    spaces_then_rest r = Some nm.
Proof.
  unfold class_match.
  destruct (skip_heading_marker line) as [|d1 [|d2 [|p [|d3 [|d4 r]]]]];
    try discriminate.
  destruct (isdecimal_char d1) eqn:E1; [|discriminate].
  destruct (isdecimal_char d2) eqn:E2; [|discriminate].
  destruct (N.eqb_spec p DOT); [|discriminate]. subst p.
  destruct (isdecimal_char d3) eqn:E3; [|discriminate].
  destruct (isdecimal_char d4) eqn:E4; [|discriminate]. simpl.
  destruct (spaces_then_rest r) eqn:Er; [|discriminate].
  intros [= <- <-]. exists d1, d2, d3, d4, r. auto 10.
Qed.

(** [class_code.split('.')[0]] is the two digits before the dot. *)
Lemma class_code_division d1 d2 d3 d4 :
  isdecimal_char d1 = true -> isdecimal_char d2 = true ->
  index (Py.split [DOT] [d1; d2; DOT; d3; d4]) 0 = Ok [d1; d2].
Proof.
  intros H1 H2. unfold Py.split.
  cbn [Py.split_go Py.startswith].
  rewrite (decimal_not_dot _ H1), (decimal_not_dot _ H2), N.eqb_refl.
  reflexivity.
Qed.

(* ================================================================== *)
(** * Part 7: the main loop of parse_nace_activities *)
(* ================================================================== *)

Lemma bind_Ok {A B} (m : result A) (k : A -> result B) b :
  bind m k = Ok b -> exists a, m = Ok a /\ k a = Ok b.
Proof. destruct m; simpl; [eauto | discriminate]. Qed.

Ltac bind_inv H :=
  let a := fresh "a" in
  let Ha := fresh "Ha" in
  apply bind_Ok in H; destruct H as [a [Ha H]].

Lemma same_heading_refl a : same_heading a a.
Proof. unfold same_heading; auto 20. Qed.

Lemma same_heading_trans a b c :
  same_heading a b -> same_heading b c -> same_heading a c.
Proof. unfold same_heading; intuition congruence. Qed.

Lemma append_activity_heading m a act :
  same_heading act (append_activity m a act).
Proof. destruct m; unfold same_heading; simpl; auto 20. Qed.

Lemma append_subactivity_heading m sub act act' :
  append_subactivity m sub act = Ok act' -> same_heading act act'.
Proof.
  destruct m; simpl; intros H; bind_inv H; injection H as <-;
    unfold same_heading; simpl; auto 20.
Qed.

(** The activity sub-parse only touches the two activity lists. *)
Lemma activity_loop_heading lines js :
  forall md cur act act',
    activity_loop lines js md cur act = Ok act' -> same_heading act act'.
Proof.
  induction js as [|j js IH]; intros md cur act act' H; simpl in H.
  - injection H as <-. apply same_heading_refl.
  - bind_inv H. destruct a.
    + injection H as <-. apply same_heading_refl.
    + repeat match type of H with
        | (if ?b then _ else _) = _ => destruct b
        | match ?o with Some _ => _ | None => _ end = _ => destruct o
        end; eauto.
      * eapply same_heading_trans;
          [apply append_activity_heading | eapply IH; eassumption].
      * bind_inv H. eapply same_heading_trans;
          [eapply append_subactivity_heading | eapply IH]; eassumption.
Qed.

Lemma class_branch_effect lines i st c nm st' :
  class_branch lines i st c nm = Ok st' ->
  current_section st' = current_section st /\
  ((activities st' = activities st /\
    processed_codes st' = processed_codes st) \/
   exists act,
     class_code act = c /\ class_name act = nm /\
     Py.mem c (processed_codes st) = false /\
     Py.truthy (Ancestor.code (current_section st)) = true /\
     section_code act = Ancestor.code (current_section st) /\
     section_name act = Ancestor.name (current_section st) /\
     index (Py.split [DOT] c) 0 = Ok (division_code act) /\
     group_code act = firstn 4 c /\
     activities st' = activities st ++ [act] /\
     processed_codes st' = c :: processed_codes st).
Proof.
  unfold class_branch. intros H.
  destruct (length c =? 5); simpl in H;
    [|injection H as <-; auto].
  destruct (nth 2 c 0 =? DOT)%N; simpl in H; [|injection H as <-; auto].
  destruct (Py.mem c (processed_codes st)) eqn:M; simpl in H;
    [injection H as <-; auto|].
  bind_inv H.
  destruct (Py.truthy (Ancestor.code (current_section st))) eqn:T.
  - apply bind_Ok in H. destruct H as [act [Hact H]].
    injection H as <-. simpl. split; [reflexivity|]. right.
    apply activity_loop_heading in Hact.
    unfold same_heading in Hact; simpl in Hact.
    exists act. intuition congruence.
  - injection H as <-. simpl. auto.
Qed.

Lemma isdigit_not_section line :
  negb (Py.truthy line) || Py.isdigit line = true ->
  section_match line = None.
Proof.
  destruct line as [|c line]; [reflexivity|]. simpl.
  unfold Py.isdigit. simpl. intros H.
  apply andb_true_iff in H as [H _].
  unfold section_match. cbn [lit list_ascii_of_string map Py.startswith].
  replace (N_of_ascii "#" =? c)%N with false; [reflexivity|].
  symmetry. apply N.eqb_neq. intros <-. vm_compute in H. discriminate.
Qed.

(** What one iteration can do to the section, the record list and the set
    of processed codes. *)
Lemma step_effect lines i st st' :
  step lines i st = Ok st' ->
  ((section_match (line_at lines i) = None /\
    current_section st' = current_section st) \/
   exists c nm d,
     section_match (line_at lines i) = Some (c, nm) /\
     current_section st' = Ancestor.mk c nm d /\
     activities st' = activities st /\
     processed_codes st' = processed_codes st) /\
  ((activities st' = activities st /\
    processed_codes st' = processed_codes st) \/
   exists act,
     class_match (line_at lines i) = Some (class_code act, class_name act) /\
     Py.mem (class_code act) (processed_codes st) = false /\
     Py.truthy (Ancestor.code (current_section st)) = true /\
     section_code act = Ancestor.code (current_section st) /\
     section_name act = Ancestor.name (current_section st) /\
     index (Py.split [DOT] (class_code act)) 0 = Ok (division_code act) /\
     group_code act = firstn 4 (class_code act) /\
     activities st' = activities st ++ [act] /\
     processed_codes st' = class_code act :: processed_codes st).
Proof.
  unfold step. fold (line_at lines i). intros H.
  destruct (negb (Py.truthy (line_at lines i)) || Py.isdigit (line_at lines i))
    eqn:Sk.
  { injection H as <-. apply isdigit_not_section in Sk. auto. }
  destruct (section_match (line_at lines i)) as [[c nm]|] eqn:Sm.
  { bind_inv H. injection H as <-. simpl. split; [right|left]; eauto 10. }
  destruct (division_match (line_at lines i)) as [[dc nm]|].
  { destruct (_ && _); [bind_inv H|]; injection H as <-; simpl; auto. }
  destruct (group_match (line_at lines i)) as [[gc nm]|].
  { bind_inv H.
    destruct (Py.eqb _ _); [bind_inv H|]; injection H as <-; simpl; auto. }
  destruct (class_match (line_at lines i)) as [[cc nm]|].
  2:{ injection H as <-. auto. }
  apply class_branch_effect in H. destruct H as [Hs [H|[act H]]].
  - auto.
  - split; [auto|]. right. exists act.
    destruct H as (<- & <- & H). intuition.
Qed.

Lemma main_loop_app lines l1 l2 st :
  main_loop lines (l1 ++ l2) st =
  bind (main_loop lines l1 st) (main_loop lines l2).
Proof.
  revert st; induction l1 as [|i l1 IH]; intros st; simpl; [reflexivity|].
  destruct (step lines i st); simpl; auto.
Qed.

(** Induction on the iterations of the main loop. *)
Lemma main_loop_ind (P : nat -> pstate -> Prop) lines :
  (forall i st st', P i st -> step lines i st = Ok st' -> P (S i) st') ->
  forall n a st st',
    P a st -> main_loop lines (seq a n) st = Ok st' -> P (a + n) st'.
Proof.
  intros Hstep. induction n as [|n IH]; intros a st st' HP H; simpl in H.
  - injection H as <-. rewrite Nat.add_0_r. assumption.
  - bind_inv H. rewrite <- Nat.add_succ_comm. eapply IH; [|eassumption].
    eapply Hstep; eassumption.
Qed.

Lemma range_0 n : Py.range 0 n = seq 0 n.
Proof. unfold Py.range. rewrite Nat.sub_0_r. reflexivity. Qed.

Lemma parse_lines_ind (P : nat -> pstate -> Prop) lines st :
  P 0 init_state ->
  (forall i st st', P i st -> step lines i st = Ok st' -> P (S i) st') ->
  parse_lines lines = Ok st -> P (length lines) st.
Proof.
  intros H0 Hstep H. unfold parse_lines in H. rewrite range_0 in H.
  change (length lines) with (0 + length lines).
  eapply main_loop_ind; eassumption.
Qed.

(** The run over the first [k] lines, and the rest of the run. *)
Lemma parse_lines_prefix lines st k :
  parse_lines lines = Ok st -> k <= length lines ->
  exists st_k,
    main_loop lines (Py.range 0 k) init_state = Ok st_k /\
    main_loop lines (seq k (length lines - k)) st_k = Ok st.
Proof.
  unfold parse_lines. rewrite !range_0. intros H Hk.
  replace (length lines) with (k + (length lines - k)) in H at 1 by lia.
  rewrite seq_app, main_loop_app in H. simpl in H.
  apply bind_Ok in H. exact H.
Qed.

(** ** The final sort *)

Lemma insert_perm a l : Permutation (insert_by_class_code a l) (a :: l).
Proof.
  induction l as [|b l IH]; simpl; [reflexivity|].
  destruct (Py.leb (class_code a) (class_code b)); [reflexivity|].
  rewrite IH. apply perm_swap.
Qed.

Lemma sort_perm l : Permutation (sort_by_class_code l) l.
Proof.
  induction l as [|a l IH]; simpl; [constructor|].
  rewrite insert_perm. constructor. assumption.
Qed.

Lemma insert_sorted a l :
  StronglySorted class_code_le l ->
  StronglySorted class_code_le (insert_by_class_code a l).
Proof.
  induction 1 as [|b l Hs IH Hb]; simpl.
  - repeat constructor.
  - destruct (Py.leb (class_code a) (class_code b)) eqn:E.
    + constructor; [constructor; assumption|].
      constructor; [exact E|].
      eapply Forall_impl; [|exact Hb]. intros c Hc.
      unfold class_code_le in *. eapply leb_trans; eassumption.
    + constructor; [assumption|].
      eapply Permutation_Forall; [symmetry; apply insert_perm|].
      constructor; [|assumption].
      unfold class_code_le.
      destruct (leb_total (class_code a) (class_code b)); congruence.
Qed.

Lemma sort_sorted l : StronglySorted class_code_le (sort_by_class_code l).
Proof.
  induction l as [|a l IH]; simpl; [constructor | apply insert_sorted, IH].
Qed.

Lemma parse_inv text out :
  parse_nace_activities text = Ok out ->
  exists st,
    parse_lines (Py.split [LF] text) = Ok st /\
    out = sort_by_class_code (activities st).
Proof.
  unfold parse_nace_activities. intros H. bind_inv H.
  injection H as <-. eauto.
Qed.

Lemma In_sorted r l : In r (sort_by_class_code l) <-> In r l.
Proof.
  split; apply Permutation_in; [|symmetry]; apply sort_perm.
Qed.

(** ** Uniqueness of the class codes *)

Lemma unique_inv_step lines i st st' :
  unique_inv st -> step lines i st = Ok st' -> unique_inv st'.
Proof.
  intros [Hnd [Hin Hout]] H. unfold unique_inv.
  apply step_effect in H as [_ [[-> ->]|[act H]]].
  - split; auto.
  - destruct H as (_ & M & _ & _ & _ & _ & _ & -> & ->).
    apply mem_not_In in M. repeat split.
    + rewrite map_app. simpl.
      apply Permutation_NoDup with (l := class_code act :: map class_code (activities st)).
      * apply Permutation_cons_append.
      * constructor; [|assumption].
        intros Hc. apply in_map_iff in Hc as [r [E Hr]].
        apply M. rewrite <- E. auto.
    + intros r Hr. apply in_app_or in Hr as [Hr|[<-|[]]]; simpl; auto.
    + intros c [<-|Hc].
      * exists act. split; [apply in_or_app; simpl; auto | reflexivity].
      * destruct (Hout c Hc) as [r [Hr E]].
        exists r. split; [apply in_or_app; auto | assumption].
Qed.

Lemma unique_inv_final lines st :
  parse_lines lines = Ok st -> unique_inv st.
Proof.
  intros H.
  apply (parse_lines_ind (fun _ => unique_inv) lines) in H; [assumption| |].
  - repeat split; simpl; [constructor | tauto | tauto].
  - intros i s s'. apply unique_inv_step.
Qed.

(** ** Hierarchy of the codes *)

Lemma hierarchy_step lines i st st' :
  Forall hierarchy (activities st) -> step lines i st = Ok st' ->
  Forall hierarchy (activities st').
Proof.
  intros HF H. apply step_effect in H as [_ [[-> _]|[act H]]]; [assumption|].
  destruct H as (Hm & _ & _ & _ & _ & Hd & Hg & -> & _).
  apply Forall_app. split; [assumption|]. constructor; [|constructor].
  apply class_match_shape in Hm
    as (d1 & d2 & d3 & d4 & rest & _ & Hc & E1 & E2 & E3 & E4 & _).
  rewrite Hc in Hd, Hg.
  rewrite (class_code_division d1 d2 d3 d4 E1 E2) in Hd. injection Hd as Hd.
  exists d1, d2, d3, d4. simpl in Hg. auto 10.
Qed.

Lemma hierarchy_final lines st :
  parse_lines lines = Ok st -> Forall hierarchy (activities st).
Proof.
  intros H.
  apply (parse_lines_ind (fun _ s => Forall hierarchy (activities s)) lines)
    in H; [assumption | constructor |].
  intros i s s'. apply hierarchy_step.
Qed.

(** ** Records come from class headings under a section heading *)

Lemma section_match_code line c nm :
  section_match line = Some (c, nm) ->
  exists l, c = [l] /\ is_upper l = true.
Proof.
  unfold section_match.
  destruct (Py.startswith _ line); [|discriminate].
  destruct (skipn 10 line) as [|l r]; [discriminate|].
  destruct (is_upper l) eqn:U; [|discriminate].
  destruct (Py.lstrip r) as [|d r2]; [discriminate|].
  destruct (is_dash d); [|discriminate].
  destruct (opt_spaces_then_rest r2); [|discriminate].
  intros [= <- <-]. eauto.
Qed.

Lemma origin_mono lines i r : origin lines i r -> origin lines (S i) r.
Proof.
  intros (s & c & Hsc & H). exists s, c. split; [lia | exact H].
Qed.

Lemma origin_inv_step lines i st st' :
  origin_inv lines i st -> step lines i st = Ok st' ->
  origin_inv lines (S i) st'.
Proof.
  intros [HS HA] H. apply step_effect in H as [H1 H2].
  unfold origin_inv, section_inv. split.
  - destruct H1 as [[Hn ->]|(c & nm & d & Hm & -> & _)].
    + destruct HS as [[Hc Hb]|(s & Hs & Hms & Hb)].
      * left. split; [assumption|]. intros j Hj.
        destruct (Nat.eq_dec j i) as [->|]; [assumption | apply Hb; lia].
      * right. exists s. repeat split; [lia | assumption |].
        intros j Hj.
        destruct (Nat.eq_dec j i) as [->|]; [assumption | apply Hb; lia].
    + right. exists i. simpl. repeat split; [lia | assumption |].
      intros j Hj. lia.
  - destruct H2 as [[-> _]|[act H]].
    + intros r Hr. apply origin_mono, HA, Hr.
    + destruct H as (Hm & _ & T & Hsc & Hsn & _ & _ & -> & _).
      intros r Hr. apply in_app_or in Hr as [Hr|[<-|[]]].
      * apply origin_mono, HA, Hr.
      * destruct HS as [[Hc _]|(s & Hs & Hms & Hb)].
        { rewrite Hc in T. discriminate. }
        exists s, i. rewrite Hsc, Hsn. repeat split; auto; lia.
Qed.

Lemma origin_inv_prefix lines n st :
  main_loop lines (Py.range 0 n) init_state = Ok st ->
  origin_inv lines n st /\ unique_inv st.
Proof.
  rewrite range_0. intros H.
  change n with (0 + n).
  eapply (main_loop_ind
            (fun i s => origin_inv lines i s /\ unique_inv s) lines);
    [| |exact H].
  - intros i s s' [Ho Hu] Hs.
    split; [eapply origin_inv_step | eapply unique_inv_step]; eassumption.
  - split.
    + split; [left; split; [reflexivity | intros j Hj; lia] | intros r []].
    + repeat split; simpl; [constructor | tauto | tauto].
Qed.

(** Before the first section heading nothing is recorded. *)
Lemma nothing_before_section lines n st :
  main_loop lines (Py.range 0 n) init_state = Ok st ->
  no_section_before lines n ->
  activities st = [] /\ processed_codes st = [] /\
  Ancestor.code (current_section st) = [].
Proof.
  intros H Hb. apply origin_inv_prefix in H as [[HS HA] (_ & _ & Hp)].
  assert (Ha : activities st = []).
  { destruct (activities st) as [|r l]; [reflexivity|].
    destruct (HA r (or_introl eq_refl)) as (s & c & Hsc & Hm & _).
    rewrite Hb in Hm by lia. discriminate. }
  repeat split; [assumption | |].
  - destruct (processed_codes st) as [|c l]; [reflexivity|].
    destruct (Hp c (or_introl eq_refl)) as (r & Hr & _).
    rewrite Ha in Hr. destruct Hr.
  - destruct HS as [[Hc _]|(s & Hs & Hm & _)]; [assumption|].
    rewrite Hb in Hm by lia. discriminate.
Qed.

(** ** A class heading reaches the class branch *)

Lemma startswith_app p s :
  Py.startswith p s = true -> exists t, s = p ++ t.
Proof.
  revert s; induction p as [|x p IH]; intros s H; simpl in *.
  - exists s. reflexivity.
  - destruct s as [|y s]; [discriminate|].
    apply andb_true_iff in H as [E H]. apply N.eqb_eq in E. subst y.
    destruct (IH s H) as [t ->]. exists t. reflexivity.
Qed.

Lemma spaces_then_rest_nonspace c r :
  isspace_char c = false -> spaces_then_rest (c :: r) = None.
Proof. intros H. simpl. rewrite H. reflexivity. Qed.

(** The heading formats exclude one another: a line that matches the class
    pattern is not blank, not a number, and matches none of the patterns
    tried before. *)
Lemma class_match_exclusive line c nm :
  class_match line = Some (c, nm) ->
  negb (Py.truthy line) || Py.isdigit line = false /\
  section_match line = None /\
  division_match line = None /\
  group_match line = None.
Proof.
  intros H.
  apply class_match_shape in H
    as (d1 & d2 & d3 & d4 & r & Hs & _ & E1 & E2 & E3 & E4 & _).
  assert (Hdiv : division_match line = None).
  { unfold division_match. rewrite Hs, E1, E2. simpl.
    reflexivity. }
  assert (Hgrp : group_match line = None).
  { unfold group_match. rewrite Hs, E1, E2, E3, N.eqb_refl.
    cbn [andb].
    rewrite spaces_then_rest_nonspace by (apply decimal_not_space, E4).
    reflexivity. }
  unfold skip_heading_marker in Hs.
  destruct (Py.startswith (lit "######") line) eqn:P.
  - apply startswith_app in P as [t ->]. repeat split; auto.
  - subst line. repeat split; auto.
    + unfold Py.isdigit. simpl.
      replace (isdigit_char DOT) with false by (vm_compute; reflexivity).
      rewrite !andb_false_r. reflexivity.
    + unfold section_match. cbn [lit list_ascii_of_string map Py.startswith].
      change (N_of_ascii "#") with HASH.
      rewrite (decimal_not_hash _ E1). reflexivity.
Qed.

Lemma step_class lines i st c nm :
  class_match (line_at lines i) = Some (c, nm) ->
  step lines i st = class_branch lines i st c nm.
Proof.
  intros H. unfold step. fold (line_at lines i).
  destruct (class_match_exclusive _ _ _ H) as (-> & -> & -> & ->).
  rewrite H. reflexivity.
Qed.

Lemma class_code_checks line c nm :
  class_match line = Some (c, nm) ->
  (length c =? 5) && (nth 2 c 0 =? DOT)%N = true /\
  index (Py.split [DOT] c) 0 = Ok (firstn 2 c).
Proof.
  intros H.
  apply class_match_shape in H
    as (d1 & d2 & d3 & d4 & r & _ & -> & E1 & E2 & _).
  split; [reflexivity | apply class_code_division; assumption].
Qed.

(** The class branch when no section has been seen: nothing is recorded,
    the code is not marked as processed, and the division and group are
    reset from the class code where they differ. *)
Lemma class_branch_orphan lines i st line c nm :
  class_match line = Some (c, nm) ->
  Py.mem c (processed_codes st) = false ->
  Ancestor.code (current_section st) = [] ->
  class_branch lines i st c nm =
  Ok (mk_pstate (activities st) (processed_codes st) (current_section st)
        (if Py.eqb (firstn 2 c) (Ancestor.code (current_division st))
         then current_division st else Ancestor.mk (firstn 2 c) [] [])
        (if Py.eqb (firstn 4 c) (Ancestor.code (current_group st))
         then current_group st else Ancestor.mk (firstn 4 c) [] [])).
Proof.
  intros H M Hs. unfold class_branch.
  destruct (class_code_checks line c nm H) as [E1 E2].
  rewrite E1, E2, M, Hs. cbn [bind negb andb Py.truthy].
  destruct (Py.eqb (firstn 2 c) (Ancestor.code (current_division st))),
    (Py.eqb (firstn 4 c) (Ancestor.code (current_group st))); reflexivity.
Qed.

(** The class branch under a section, for a code not yet processed: when it
    returns, it has recorded the class. *)
Lemma class_branch_emit lines i st st' line c nm :
  class_match line = Some (c, nm) ->
  Py.mem c (processed_codes st) = false ->
  Py.truthy (Ancestor.code (current_section st)) = true ->
  class_branch lines i st c nm = Ok st' ->
  exists act, class_code act = c /\ activities st' = activities st ++ [act].
Proof.
  intros H M T. unfold class_branch.
  destruct (class_code_checks line c nm H) as [E1 E2].
  rewrite E1, E2, M, T. cbn [bind negb andb].
  intros Hb. apply bind_Ok in Hb as [act [Hact Hb]].
  injection Hb as <-. simpl. exists act. split; [|reflexivity].
  apply activity_loop_heading in Hact. unfold same_heading in Hact.
  simpl in Hact. intuition congruence.
Qed.

(** Records, once appended, stay. *)
Lemma main_loop_keeps lines idxs :
  forall st st' r,
    main_loop lines idxs st = Ok st' ->
    In r (activities st) -> In r (activities st').
Proof.
  induction idxs as [|i idxs IH]; intros st st' r H Hr; simpl in H.
  - injection H as <-. assumption.
  - bind_inv H. eapply IH; [eassumption|].
    apply step_effect in Ha as [_ [[-> _]|[act Ha]]]; [assumption|].
    destruct Ha as (_ & _ & _ & _ & _ & _ & _ & -> & _).
    apply in_or_app. auto.
Qed.

Lemma line_at_beyond lines i : length lines <= i -> line_at lines i = [].
Proof. intros H. unfold line_at. rewrite nth_overflow by exact H. reflexivity. Qed.

Lemma class_match_in_range lines i c nm :
  class_match (line_at lines i) = Some (c, nm) -> i < length lines.
Proof.
  intros H. destruct (Nat.lt_ge_cases i (length lines)) as [|G]; [assumption|].
  rewrite (line_at_beyond _ _ G) in H. discriminate.
Qed.

(* ================================================================== *)
(** * Part 8: properties of parse_nace_activities *)
(* ================================================================== *)

(** C3. Whenever [parse_nace_activities] returns, no two records of its
    output have the same [class_code]: a class code is recorded only when it
    is not in the set of processed codes, and is added to that set when it
    is recorded. *)
Theorem class_codes_unique (text : str) (out : list record) :
  parse_nace_activities text = Ok out ->
  NoDup (map class_code out).
Proof.
  intros H. apply parse_inv in H as (st & Hst & ->).
  apply unique_inv_final in Hst as [Hnd _].
  eapply Permutation_NoDup; [|exact Hnd].
  apply Permutation_map. symmetry. apply sort_perm.
Qed.

Lemma class_codes_unique_witness :
  parse_nace_activities repeated_heading = Ok repeated_heading_records /\
  NoDup (map class_code repeated_heading_records).
Proof.
  split; [vm_compute; reflexivity|].
  apply (class_codes_unique repeated_heading). vm_compute; reflexivity.
Defined.

(** C4. In every record of the output, the division code is the two digits
    that start the group code, and the group code is the first four
    characters of the class code. *)
Theorem hierarchy_consistency (text : str) (out : list record) (r : record) :
  parse_nace_activities text = Ok out -> In r out ->
  Py.startswith (division_code r) (group_code r) = true /\
  length (division_code r) = 2 /\
  forallb isdecimal_char (division_code r) = true /\
  firstn 4 (class_code r) = group_code r.
Proof.
  intros H Hr. apply parse_inv in H as (st & Hst & ->).
  apply (proj1 (In_sorted _ _)) in Hr. apply hierarchy_final in Hst.
  rewrite Forall_forall in Hst.
  destruct (Hst r Hr) as (d1 & d2 & d3 & d4 & E1 & E2 & _ & _ & -> & -> & ->).
  simpl. rewrite !N.eqb_refl, E1, E2. auto.
Qed.

Lemma hierarchy_consistency_witness :
  parse_nace_activities spec_scenario = Ok spec_scenario_records /\
  In spec_scenario_first spec_scenario_records /\
  Py.startswith (division_code spec_scenario_first)
    (group_code spec_scenario_first) = true /\
  length (division_code spec_scenario_first) = 2 /\
  forallb isdecimal_char (division_code spec_scenario_first) = true /\
  firstn 4 (class_code spec_scenario_first) = group_code spec_scenario_first.
Proof.
  split; [vm_compute; reflexivity|].
  split; [left; reflexivity|].
  apply (hierarchy_consistency spec_scenario spec_scenario_records).
  - vm_compute; reflexivity.
  - left; reflexivity.
Defined.

(** C5. Whenever [parse_nace_activities] returns, every record of its output
    stems from a class heading that comes after a section heading, and
    carries the code and name of the last section heading before it; and as
    long as no section heading has been met, the loop has recorded nothing,
    whatever class headings it has passed. *)
Theorem records_only_under_section (text : str) (out : list record) :
  parse_nace_activities text = Ok out ->
  (forall r, In r out ->
     Py.truthy (section_code r) = true /\
     exists s c,
       s < c < length (Py.split [LF] text) /\
       section_match (line_at (Py.split [LF] text) s)
         = Some (section_code r, section_name r) /\
       (forall j, s < j < c ->
          section_match (line_at (Py.split [LF] text) j) = None) /\
       class_match (line_at (Py.split [LF] text) c)
         = Some (class_code r, class_name r)) /\
  (forall k, k <= length (Py.split [LF] text) ->
     no_section_before (Py.split [LF] text) k ->
     exists st,
       main_loop (Py.split [LF] text) (Py.range 0 k) init_state = Ok st /\
       activities st = [] /\ processed_codes st = []).
Proof.
  intros H. apply parse_inv in H as (st & Hst & ->). split.
  - intros r Hr. apply (proj1 (In_sorted _ _)) in Hr.
    assert (Hp := Hst). unfold parse_lines in Hp.
    apply origin_inv_prefix in Hp as [[_ Ho] _].
    destruct (Ho r Hr) as (s & c & Hsc & Hs & Hb & Hc).
    split; [|exists s, c; auto].
    destruct (section_match_code _ _ _ Hs) as (l & -> & _). reflexivity.
  - intros k Hk Hb.
    destruct (parse_lines_prefix _ _ k Hst Hk) as (st_k & Hrun & _).
    exists st_k. split; [assumption|].
    destruct (nothing_before_section _ _ _ Hrun Hb) as (Ha & Hp & _). auto.
Qed.

Lemma records_only_under_section_witness :
  parse_nace_activities orphan_then_section = Ok orphan_then_section_records /\
  (forall r, In r orphan_then_section_records ->
     Py.truthy (section_code r) = true /\
     exists s c,
       s < c < length (Py.split [LF] orphan_then_section) /\
       section_match (line_at (Py.split [LF] orphan_then_section) s)
         = Some (section_code r, section_name r) /\
       (forall j, s < j < c ->
          section_match (line_at (Py.split [LF] orphan_then_section) j)
            = None) /\
       class_match (line_at (Py.split [LF] orphan_then_section) c)
         = Some (class_code r, class_name r)) /\
  (forall k, k <= length (Py.split [LF] orphan_then_section) ->
     no_section_before (Py.split [LF] orphan_then_section) k ->
     exists st,
       main_loop (Py.split [LF] orphan_then_section) (Py.range 0 k)
         init_state = Ok st /\
       activities st = [] /\ processed_codes st = []).
Proof.
  split; [vm_compute; reflexivity|].
  apply (records_only_under_section orphan_then_section).
  vm_compute; reflexivity.
Defined.

(** C6. Whenever [parse_nace_activities] returns, its output is in
    non-decreasing order of [class_code], strings being compared
    lexicographically by code point. *)
Theorem output_sorted (text : str) (out : list record) :
  parse_nace_activities text = Ok out ->
  StronglySorted class_code_le out.
Proof.
  intros H. apply parse_inv in H as (st & _ & ->). apply sort_sorted.
Qed.

Lemma output_sorted_witness :
  parse_nace_activities unordered_headings = Ok unordered_headings_records /\
  StronglySorted class_code_le unordered_headings_records.
Proof.
  split; [vm_compute; reflexivity|].
  apply (output_sorted unordered_headings). vm_compute; reflexivity.
Defined.

(** C10. A class heading met while no section heading has been seen is not
    recorded and its code is not added to the processed codes, while the
    current division and group are still reset from the prefixes of the
    class code (where they differ); so a later heading of the same class,
    after a section heading, is recorded: the class code is in the
    output. *)
Theorem orphan_class_not_processed
    (text : str) (out : list record) (k1 s k2 : nat) (c nm1 nm2 : str) :
  parse_nace_activities text = Ok out ->
  no_section_before (Py.split [LF] text) k1 ->
  class_match (line_at (Py.split [LF] text) k1) = Some (c, nm1) ->
  section_match (line_at (Py.split [LF] text) s) <> None ->
  s < k2 ->
  class_match (line_at (Py.split [LF] text) k2) = Some (c, nm2) ->
  (exists st st',
     main_loop (Py.split [LF] text) (Py.range 0 k1) init_state = Ok st /\
     step (Py.split [LF] text) k1 st = Ok st' /\
     activities st' = [] /\
     processed_codes st' = [] /\
     current_section st' = current_section st /\
     current_division st' =
       (if Py.eqb (firstn 2 c) (Ancestor.code (current_division st))
        then current_division st else Ancestor.mk (firstn 2 c) [] []) /\
     current_group st' =
       (if Py.eqb (firstn 4 c) (Ancestor.code (current_group st))
        then current_group st else Ancestor.mk (firstn 4 c) [] []) /\
     Ancestor.code (current_division st') = firstn 2 c /\
     Ancestor.code (current_group st') = firstn 4 c) /\
  In c (map class_code out).
Proof.
  set (lines := Py.split [LF] text).
  intros H Hb Hc1 Hs Hsk Hc2.
  apply parse_inv in H as (stf & Hst & ->). fold lines in Hst. split.
  - assert (Hk1 := class_match_in_range _ _ _ _ Hc1).
    destruct (parse_lines_prefix lines stf k1 Hst (Nat.lt_le_incl _ _ Hk1))
      as (st & Hrun & _).
    destruct (nothing_before_section _ _ _ Hrun Hb) as (Ha & Hp & Hcode).
    exists st. eexists. split; [exact Hrun|].
    rewrite (step_class lines k1 st c nm1 Hc1).
    rewrite (class_branch_orphan lines k1 st _ c nm1 Hc1);
      [|rewrite Hp; reflexivity | exact Hcode].
    cbn [activities processed_codes current_section current_division
         current_group].
    repeat split; try assumption.
    + destruct (Py.eqb (firstn 2 c) _) eqn:E; [|reflexivity].
      apply eqb_eq in E. symmetry. exact E.
    + destruct (Py.eqb (firstn 4 c) _) eqn:E; [|reflexivity].
      apply eqb_eq in E. symmetry. exact E.
  - assert (Hk2 := class_match_in_range _ _ _ _ Hc2).
    destruct (parse_lines_prefix lines stf k2 Hst (Nat.lt_le_incl _ _ Hk2))
      as (st & Hrun & Hrest).
    destruct (length lines - k2) as [|m] eqn:Em; [lia|].
    simpl in Hrest. apply bind_Ok in Hrest as (st' & Hstep & Hrest).
    apply origin_inv_prefix in Hrun as [[HS _] (_ & _ & Hproc)].
    assert (T : Py.truthy (Ancestor.code (current_section st)) = true).
    { destruct HS as [[_ Hn]|(s0 & _ & Hm & _)].
      - exfalso. apply Hs, Hn, Hsk.
      - destruct (section_match_code _ _ _ Hm) as (l & -> & _). reflexivity. }
    assert (Hin : exists r, In r (activities st') /\ class_code r = c).
    { rewrite (step_class lines k2 st c nm2 Hc2) in Hstep.
      destruct (Py.mem c (processed_codes st)) eqn:M.
      - apply mem_In in M. destruct (Hproc c M) as (r & Hr & E).
        exists r. split; [|exact E].
        apply (main_loop_keeps lines [k2] st st' r); [|exact Hr].
        simpl. rewrite (step_class lines k2 st c nm2 Hc2), Hstep.
        reflexivity.
      - destruct (class_branch_emit _ _ _ _ _ _ _ Hc2 M T Hstep)
          as (act & E & ->).
        exists act. split; [apply in_or_app; simpl; auto | exact E]. }
    destruct Hin as (r & Hr & <-).
    apply in_map, In_sorted.
    eapply main_loop_keeps; eassumption.
Qed.

Lemma orphan_class_not_processed_witness :
  parse_nace_activities orphan_then_section = Ok orphan_then_section_records /\
  (exists st st',
     main_loop (Py.split [LF] orphan_then_section) (Py.range 0 0) init_state
       = Ok st /\
     step (Py.split [LF] orphan_then_section) 0 st = Ok st' /\
     activities st' = [] /\
     processed_codes st' = [] /\
     current_section st' = current_section st /\
     current_division st' =
       (if Py.eqb (firstn 2 (lit "01.11"))
             (Ancestor.code (current_division st))
        then current_division st
        else Ancestor.mk (firstn 2 (lit "01.11")) [] []) /\
     current_group st' =
       (if Py.eqb (firstn 4 (lit "01.11")) (Ancestor.code (current_group st))
        then current_group st
        else Ancestor.mk (firstn 4 (lit "01.11")) [] []) /\
     Ancestor.code (current_division st') = firstn 2 (lit "01.11") /\
     Ancestor.code (current_group st') = firstn 4 (lit "01.11")) /\
  In (lit "01.11") (map class_code orphan_then_section_records).
Proof.
  split; [vm_compute; reflexivity|].
  apply (orphan_class_not_processed orphan_then_section
           orphan_then_section_records 0 1 2
           (lit "01.11") (lit "Growing of cereals")
           (lit "Growing of cereals")).
  - vm_compute; reflexivity.
  - intros j Hj. inversion Hj.
  - vm_compute; reflexivity.
  - vm_compute; discriminate.
  - auto.
  - vm_compute; reflexivity.
Defined.

(* ================================================================== *)
(** * Part 9: split_nace_by_sections against its specification *)
(* ================================================================== *)

Lemma contains_char sep s : Py.contains [sep] s = Py.mem_char sep s.
Proof.
  induction s as [|c s IH]; [reflexivity|].
  simpl. rewrite IH, andb_true_r. reflexivity.
Qed.

Lemma split_char_first sep s :
  forall cur, exists ps,
    Py.split_go [sep] s 0 cur = (rev cur ++ text_before sep s) :: ps.
Proof.
  induction s as [|c s IH]; intros cur; simpl.
  - exists []. rewrite app_nil_r. reflexivity.
  - rewrite andb_true_r, (N.eqb_sym c sep).
    destruct (sep =? c)%N.
    + eexists. rewrite app_nil_r. reflexivity.
    + destruct (IH (c :: cur)) as [ps ->]. exists ps.
      simpl. rewrite <- app_assoc. reflexivity.
Qed.

Lemma index_split_char sep s :
  index (Py.split [sep] s) 0 = Ok (text_before sep s).
Proof.
  unfold Py.split. destruct (split_char_first sep s []) as [ps ->].
  reflexivity.
Qed.

Lemma drop_while_last p l c :
  p c = false -> Py.drop_while p (l ++ [c]) = Py.drop_while p l ++ [c].
Proof.
  intros H. induction l as [|x l IH]; simpl.
  - rewrite H. reflexivity.
  - destruct (p x); [exact IH | reflexivity].
Qed.

Lemma strip_keeps_head c t :
  isspace_char c = false -> exists t', Py.strip (c :: t) = c :: t'.
Proof.
  intros H. unfold Py.strip, Py.lstrip, Py.rstrip. simpl. rewrite H.
  simpl. rewrite (drop_while_last _ _ _ H), rev_app_distr. simpl. eauto.
Qed.

Lemma drop_while_In p l d t : Py.drop_while p l = d :: t -> In d l.
Proof.
  induction l as [|x l IH]; simpl; [discriminate|].
  destruct (p x); [auto | intros [= -> _]; auto].
Qed.

(** The anatomy of a section-heading line. *)
Lemma section_heading_shape line :
  section_heading line = true ->
  exists l r d,
    line = lit "# Section " ++ l :: r /\ is_upper l = true /\
    is_dash d = true /\ In d r.
Proof.
  unfold section_heading. intros H.
  apply andb_true_iff in H as [P H].
  apply startswith_app in P as [t ->].
  change (skipn 10 (lit "# Section " ++ t)) with t in H.
  destruct t as [|l r]; [discriminate|].
  apply andb_true_iff in H as [U H].
  destruct (Py.drop_while _ r) as [|d t] eqn:E; [discriminate|].
  exists l, r, d. repeat split; auto. eapply drop_while_In, E.
Qed.

Lemma mem_char_In c s : Py.mem_char c s = true <-> In c s.
Proof.
  unfold Py.mem_char. rewrite existsb_exists. split.
  - intros [x [Hx E]]. apply N.eqb_eq in E. subst. assumption.
  - intros H. exists c. split; [assumption | apply N.eqb_refl].
Qed.

(** On a section heading the separator loop finds a dash, and the name it
    computes is the one of the specification. *)
Lemma try_separators_heading raw cs :
  is_section_line raw = true ->
  try_separators [EN_DASH; EM_DASH; HYPHEN] (Py.strip raw) cs
    = Ok (Some (name_before_dash raw)).
Proof.
  unfold is_section_line, name_before_dash. intros H.
  destruct (section_heading_shape _ H) as (l & r & d & E & _ & D & I).
  cbv zeta. simpl try_separators. rewrite !contains_char, !index_split_char.
  simpl bind.
  destruct (Py.mem_char EN_DASH (Py.strip raw)) eqn:M1; [reflexivity|].
  destruct (Py.mem_char EM_DASH (Py.strip raw)) eqn:M2; [reflexivity|].
  destruct (Py.mem_char HYPHEN (Py.strip raw)) eqn:M3; [reflexivity|].
  exfalso. rewrite E in *.
  assert (Hd : In d (lit "# Section " ++ l :: r))
    by (apply in_or_app; right; right; exact I).
  unfold is_dash in D.
  apply orb_true_iff in D as [D|D]; [apply orb_true_iff in D as [D|D]|];
    apply N.eqb_eq in D; subst d; apply mem_char_In in Hd; congruence.
Qed.

(** The name of a section heading is never empty. *)
Lemma name_before_dash_truthy raw :
  is_section_line raw = true -> Py.truthy (name_before_dash raw) = true.
Proof.
  unfold is_section_line, name_before_dash. intros H.
  destruct (section_heading_shape _ H) as (l & r & d & E & _).
  cbv zeta. rewrite E.
  assert (T : forall sep, (HASH =? sep)%N = false ->
            Py.truthy (Py.strip (text_before sep (lit "# Section " ++ l :: r)))
            = true).
  { intros sep Hs.
    change (lit "# Section " ++ l :: r)
      with (HASH :: (lit " Section " ++ l :: r)).
    cbn [text_before]. rewrite Hs.
    destruct (strip_keeps_head HASH
                (text_before sep (lit " Section " ++ l :: r)) eq_refl)
      as [t' ->]. reflexivity. }
  repeat match goal with |- context [if ?b then _ else _] => destruct b end;
    apply T; reflexivity.
Qed.

(** The loop from a state with an open section [nm], whose content so far
    is [cc]. *)
Lemma split_loop_open lines :
  forall secs nm cc out,
    Py.truthy nm = true -> cc <> [] ->
    bind (split_loop lines (mk_sstate secs (Some nm) cc out))
      (fun st => Ok (finish st))
    = Ok (secs
            ++ [Segment.mk nm
                  (Py.join [LF]
                     (cc ++ map Py.strip
                        (take_while (fun x => negb (is_section_line x)) lines)))]
            ++ segments_stripped lines,
          out ++ map found_line (segments_stripped lines)).
Proof.
  induction lines as [|raw lines IH]; intros secs nm cc out T Hcc.
  - simpl. unfold finish, final_sections, save_section. simpl.
    rewrite !app_nil_r.
    destruct cc; [congruence | rewrite T; reflexivity].
  - simpl split_loop. unfold split_step. fold (is_section_line raw).
    unfold segments_stripped. simpl section_blocks. simpl take_while.
    destruct (is_section_line raw) eqn:Hh.
    + rewrite (try_separators_heading raw _ Hh). simpl bind.
      unfold save_section. simpl. rewrite T.
      rewrite IH; [|apply name_before_dash_truthy, Hh | discriminate].
      simpl. rewrite !app_nil_r, <- !app_assoc. reflexivity.
    + simpl. rewrite T. simpl bind.
      rewrite IH; [|exact T | destruct cc; discriminate].
      rewrite <- !app_assoc. reflexivity.
Qed.

(** The loop before the first section heading. *)
Lemma split_loop_closed lines :
  forall out,
    bind (split_loop lines (mk_sstate [] None [] out))
      (fun st => Ok (finish st))
    = Ok (segments_stripped lines,
          out ++ map found_line (segments_stripped lines)).
Proof.
  induction lines as [|raw lines IH]; intros out.
  - simpl. rewrite app_nil_r. reflexivity.
  - simpl split_loop. unfold split_step. fold (is_section_line raw).
    unfold segments_stripped. simpl section_blocks.
    destruct (is_section_line raw) eqn:Hh.
    + rewrite (try_separators_heading raw _ Hh). simpl bind.
      unfold save_section. simpl.
      rewrite split_loop_open;
        [|apply name_before_dash_truthy, Hh | discriminate].
      simpl. rewrite <- !app_assoc. reflexivity.
    + simpl. apply IH.
Qed.

Lemma section_blocks_count lines :
  length (section_blocks lines) = length (filter is_section_line lines).
Proof.
  induction lines as [|l lines IH]; simpl; [reflexivity|].
  destruct (is_section_line l); simpl; congruence.
Qed.

(** C9, as amended.  For every text, [split_nace_by_sections] returns
    without raising, with one entry per section-heading line, in order: its
    name is the stripped text of the heading before the first dash found
    (trying "–", then "—", then "-"), and its content joins by newlines the
    lines from the heading up to the next section heading, each one without
    its leading and trailing whitespace; the lines before the first heading
    are in no entry.  It prints one line per entry. *)
Theorem split_by_sections_stripped (text : str) :
  split_nace_by_sections text
    = Ok (segments_stripped (Py.split [LF] text),
          map found_line (segments_stripped (Py.split [LF] text))) /\
  length (segments_stripped (Py.split [LF] text))
    = length (filter is_section_line (Py.split [LF] text)).
Proof.
  split.
  - unfold split_nace_by_sections.
    apply (split_loop_closed (Py.split [LF] text) []).
  - unfold segments_stripped. rewrite length_map. apply section_blocks_count.
Qed.

(** C9, as stated, fails: the content of an entry is not made of the lines
    as they are in the text when one of them is indented. *)
Lemma split_by_sections_not_exact :
  returned_segments (split_nace_by_sections indented_document)
  <> segments_exact (Py.split [LF] indented_document).
Proof. vm_compute. discriminate. Qed.

(* ================================================================== *)
(** * Part 10: validate_nace_activities *)
(* ================================================================== *)

(** C8. For every list of records, [validate_nace_activities] returns true
    exactly when the list has 615 records; the numbers of distinct section,
    division and group codes are printed and do not enter the result. *)
Theorem validate_checks_total_only (activities : list record) :
  snd (validate_nace_activities activities) = (length activities =? 615) /\
  (snd (validate_nace_activities activities) = true
   <-> length activities = 615) /\
  In (print_sections
        (length (to_set (map section_code activities)))
        (sorted (to_set (map section_code activities))))
     (fst (validate_nace_activities activities)) /\
  In (print_divisions
        (length (to_set (map division_code activities)))
        (firstn 5 (sorted (to_set (map division_code activities)))))
     (fst (validate_nace_activities activities)) /\
  In (print_groups
        (length (to_set (map group_code activities)))
        (firstn 5 (sorted (to_set (map group_code activities)))))
     (fst (validate_nace_activities activities)).
Proof.
  unfold validate_nace_activities. cbn [fst snd].
  split; [reflexivity|]. split; [apply Nat.eqb_eq|].
  repeat split; apply in_or_app; left; simpl; auto 10.
Qed.

(* ================================================================== *)
(** * Part 11: where parse_nace_activities departs from its description *)
(* ================================================================== *)

(** C1. [parse_nace_activities] raises [IndexError] on a document where a
    sub-activity line follows the switch to the excluded activities while
    that list is still empty and an included activity has been read. *)
Theorem parse_raises_on_star_after_switch :
  parse_nace_activities star_after_switch = Raise IndexError.
Proof. vm_compute. reflexivity. Qed.

(** C2. In the activity sub-parse, a sub-activity line in a mode whose list
    is still empty is dropped when no activity was read at all, but raises
    [IndexError] when an activity was read in the other mode. *)
Theorem subactivity_without_activity_in_mode :
  parse_activity_block
    (map lit [ "01.11 Growing of cereals";
               "This class excludes:";
               "* Winter wheat" ]%string) 0 blank_record
    = Ok blank_record /\
  parse_activity_block
    (map lit [ "01.11 Growing of cereals";
               "This class includes:";
               "- Growing of wheat";
               "This class excludes:" ]%string) 0 blank_record
    = Ok (set_included blank_record [mk_entry (lit "Growing of wheat") []]) /\
  parse_activity_block
    (map lit [ "01.11 Growing of cereals";
               "This class includes:";
               "- Growing of wheat";
               "This class excludes:";
               "* Winter wheat" ]%string) 0 blank_record
    = Raise IndexError.
Proof. repeat split; vm_compute; reflexivity. Qed.

(** C7. The description recorded for a section holds the text of the lines
    after the one with the marker, as far as the three-line window goes:
    the window is joined by blanks, so cutting at the first newline cuts
    nothing. *)
Theorem section_description_runs_over_lines :
  scan_description (Py.split [LF] section_with_description) 0
    (lit "This section includes")
    = Ok (lit "farming. 01 Crop production 01.11 Growing of cereals") /\
  map section_description
    (returned (parse_nace_activities section_with_description))
    = [lit "farming. 01 Crop production 01.11 Growing of cereals"].
Proof. split; vm_compute; reflexivity. Qed.

(* ================================================================== *)
(** * Part 12: when parse_nace_activities returns *)
(* ================================================================== *)

(** A separator that occurs is a place where [split] cuts. *)
Lemma split_go_two sep s :
  sep <> [] ->
  forall cur, Py.contains sep s = true ->
  exists p q ps, Py.split_go sep s 0 cur = p :: q :: ps.
Proof.
  intros Hsep. induction s as [|c s IH]; intros cur H.
  - destruct sep; [congruence | discriminate].
  - simpl in H. cbn [Py.split_go].
    destruct (Py.startswith sep (c :: s)) eqn:P.
    + destruct (Py.split_go sep s (length sep - 1) []) as [|q ps] eqn:E.
      * exfalso. eapply split_go_nonempty, E.
      * eauto.
    + simpl in H. apply IH, H.
Qed.

Lemma scan_loop_returns lines marker js :
  marker <> [] -> exists d, scan_loop lines marker js = Ok d.
Proof.
  intros Hm. induction js as [|j js IH]; simpl; [eauto|].
  destruct (Py.contains marker _) eqn:C; [|exact IH].
  destruct (split_go_two marker _ Hm [] C) as (p & q & ps & E).
  unfold Py.split at 1. rewrite E. unfold index at 1.
  cbn [nth_error bind].
  destruct (index_split_0 [LF] q) as (f & -> & _). simpl. eauto.
Qed.

Lemma scan_description_returns lines i marker :
  marker <> [] -> exists d, scan_description lines i marker = Ok d.
Proof. intros H. apply scan_loop_returns, H. Qed.

Lemma split_ws_go_pending s c cur : Py.split_ws_go s (c :: cur) <> [].
Proof.
  revert c cur; induction s as [|x s IH]; intros c cur; simpl.
  - discriminate.
  - destruct (isspace_char x); [discriminate | apply IH].
Qed.

(** The stop test never raises: a line that matches the class pattern starts
    with a digit or with the heading marker, so it has a first token. *)
Lemma block_ends_returns line : exists b, block_ends line = Ok b.
Proof.
  unfold block_ends. destruct (class_match line) as [[c nm]|] eqn:H; [|eauto].
  assert (Hs : exists x t, line = x :: t /\ isspace_char x = false).
  { apply class_match_shape in H
      as (d1 & d2 & d3 & d4 & r & Hs & _ & E1 & _).
    unfold skip_heading_marker in Hs.
    destruct (Py.startswith (lit "######") line) eqn:P.
    - apply startswith_app in P as [t ->]. eexists _, _. split; reflexivity.
    - subst line. eexists _, _. split; [reflexivity|].
      apply decimal_not_space, E1. }
  destruct Hs as (x & t & -> & Hx). unfold Py.split_ws. simpl. rewrite Hx.
  destruct (Py.split_ws_go t [x]) as [|tok toks] eqn:E.
  - exfalso. eapply split_ws_go_pending, E.
  - simpl. eauto.
Qed.

(** Without sub-activity lines the activity sub-parse returns. *)
Lemma activity_loop_returns lines js :
  no_star_line lines ->
  forall md cur act, exists act', activity_loop lines js md cur act = Ok act'.
Proof.
  intros Hns. induction js as [|j js IH]; intros md cur act;
    cbn [activity_loop]; [eauto|].
  destruct (block_ends_returns (Py.strip (nth j lines []))) as [b ->].
  cbn [bind]. destruct b; [eauto|].
  rewrite (Hns j). cbn [andb].
  repeat match goal with
    | |- context [if ?b then _ else _] => destruct b
    | |- context [match ?o with Some _ => _ | None => _ end] => destruct o
    end; apply IH.
Qed.

Lemma step_returns lines i st :
  no_star_line lines -> exists st', step lines i st = Ok st'.
Proof.
  intros Hns. unfold step.
  destruct (_ || _); [eauto|].
  destruct (section_match _) as [[c nm]|].
  { destruct (scan_description_returns lines i (lit "This section includes"))
      as [d ->]; [discriminate|]. simpl. eauto. }
  destruct (division_match _) as [[c nm]|].
  { destruct (_ && _); [|eauto].
    destruct (scan_description_returns lines i (lit "This division includes"))
      as [d ->]; [discriminate|]. simpl. eauto. }
  destruct (group_match _) as [[c nm]|].
  { destruct (index_split_0 [DOT] c) as (p & -> & _). simpl.
    destruct (Py.eqb _ _); [|eauto].
    destruct (scan_description_returns lines i (lit "This group includes"))
      as [d ->]; [discriminate|]. simpl. eauto. }
  destruct (class_match _) as [[c nm]|]; [|eauto].
  unfold class_branch.
  destruct (_ && _); [|eauto].
  destruct (index_split_0 [DOT] c) as (p & -> & _). simpl.
  destruct (Py.truthy _); [|eauto].
  unfold parse_activity_block.
  match goal with
  | |- context [activity_loop lines ?js ?md ?cur ?act] =>
      destruct (activity_loop_returns lines js Hns md cur act) as [a ->]
  end.
  simpl. eauto.
Qed.

Lemma main_loop_returns lines idxs :
  no_star_line lines ->
  forall st, exists st', main_loop lines idxs st = Ok st'.
Proof.
  intros Hns. induction idxs as [|i idxs IH]; intros st; simpl; [eauto|].
  destruct (step_returns lines i st Hns) as [st' ->]. simpl. apply IH.
Qed.

(** On a text none of whose lines starts, once stripped, with a star,
    [parse_nace_activities] returns: the one way it can raise is through a
    sub-activity line. *)
Lemma parse_returns_without_star (text : str) :
  no_star_line (Py.split [LF] text) ->
  exists out, parse_nace_activities text = Ok out.
Proof.
  intros Hns. unfold parse_nace_activities, parse_lines.
  destruct (main_loop_returns (Py.split [LF] text)
              (Py.range 0 (length (Py.split [LF] text))) Hns init_state)
    as [st ->].
  simpl. eauto.
Qed.

(* ================================================================== *)
(** * Part 13: further properties of parse_nace_activities *)
(* ================================================================== *)

(** The ways the class branch can end. *)
Lemma class_branch_inv lines i st c nm st' :
  class_branch lines i st c nm = Ok st' ->
  st' = st \/
  exists dc,
    index (Py.split [DOT] c) 0 = Ok dc /\
    Py.mem c (processed_codes st) = false /\
    (st' = mk_pstate (activities st) (processed_codes st) (current_section st)
             (reset_to dc (current_division st))
             (reset_to (firstn 4 c) (current_group st)) \/
     exists act,
       Py.truthy (Ancestor.code (current_section st)) = true /\
       parse_activity_block lines i
         (new_record st dc (firstn 4 c) c nm) = Ok act /\
       st' = mk_pstate (activities st ++ [act]) (c :: processed_codes st)
               (current_section st)
               (reset_to dc (current_division st))
               (reset_to (firstn 4 c) (current_group st))).
Proof.
  unfold class_branch. intros H.
  destruct (length c =? 5); simpl in H; [|injection H as <-; auto].
  destruct (nth 2 c 0 =? DOT)%N; simpl in H; [|injection H as <-; auto].
  destruct (Py.mem c (processed_codes st)) eqn:M; simpl in H;
    [injection H as <-; auto|].
  apply bind_Ok in H as (dc & Hdc & H). right. exists dc.
  split; [exact Hdc|]. split; [reflexivity|].
  destruct (Py.truthy (Ancestor.code (current_section st))) eqn:T.
  - apply bind_Ok in H as (act & Hact & H). injection H as <-.
    right. exists act. auto.
  - injection H as <-. left. reflexivity.
Qed.

(** The ways one iteration of the main loop can end. *)
Lemma step_inv lines i st st' :
  step lines i st = Ok st' ->
  st' = st \/
  (exists c nm d,
     section_match (line_at lines i) = Some (c, nm) /\
     scan_description lines i (lit "This section includes") = Ok d /\
     st' = mk_pstate (activities st) (processed_codes st)
             (Ancestor.mk c nm d) (current_division st) (current_group st)) \/
  (exists c nm d,
     division_match (line_at lines i) = Some (c, nm) /\
     scan_description lines i (lit "This division includes") = Ok d /\
     st' = mk_pstate (activities st) (processed_codes st)
             (current_section st) (Ancestor.mk c nm d) (current_group st)) \/
  (exists c nm d,
     group_match (line_at lines i) = Some (c, nm) /\
     scan_description lines i (lit "This group includes") = Ok d /\
     st' = mk_pstate (activities st) (processed_codes st)
             (current_section st) (current_division st)
             (Ancestor.mk c nm d)) \/
  (exists c nm,
     class_match (line_at lines i) = Some (c, nm) /\
     class_branch lines i st c nm = Ok st').
Proof.
  unfold step. fold (line_at lines i). intros H.
  destruct (negb (Py.truthy (line_at lines i)) || Py.isdigit (line_at lines i)).
  { injection H as <-. auto. }
  destruct (section_match (line_at lines i)) as [[c nm]|].
  { apply bind_Ok in H as (d & Hd & H). injection H as <-.
    right; left. eauto 10. }
  destruct (division_match (line_at lines i)) as [[c nm]|].
  { destruct (_ && _); [|injection H as <-; auto].
    apply bind_Ok in H as (d & Hd & H). injection H as <-.
    right; right; left. eauto 10. }
  destruct (group_match (line_at lines i)) as [[c nm]|].
  { apply bind_Ok in H as (p & Hp & H).
    destruct (Py.eqb _ _); [|injection H as <-; auto].
    apply bind_Ok in H as (d & Hd & H). injection H as <-.
    right; right; right; left. eauto 10. }
  destruct (class_match (line_at lines i)) as [[c nm]|].
  - right; right; right; right. eauto.
  - injection H as <-. auto.
Qed.

(** As long as no section heading has been met, an iteration returns and
    records nothing, whatever the line. *)
Lemma step_without_section lines i st :
  Ancestor.code (current_section st) = [] ->
  section_match (line_at lines i) = None ->
  exists st',
    step lines i st = Ok st' /\
    Ancestor.code (current_section st') = [] /\
    activities st' = activities st.
Proof.
  intros Hc Hs. unfold step. fold (line_at lines i). rewrite Hs.
  destruct (_ || _); [eauto|].
  destruct (division_match _) as [[c nm]|].
  { destruct (_ && _); [|eauto].
    destruct (scan_description_returns lines i (lit "This division includes"))
      as [d ->]; [discriminate|]. simpl. eauto. }
  destruct (group_match _) as [[c nm]|].
  { destruct (index_split_0 [DOT] c) as (p & -> & _). simpl.
    destruct (Py.eqb _ _); [|eauto].
    destruct (scan_description_returns lines i (lit "This group includes"))
      as [d ->]; [discriminate|]. simpl. eauto. }
  destruct (class_match _) as [[c nm]|]; [|eauto].
  unfold class_branch.
  destruct (_ && _); [|eauto].
  destruct (index_split_0 [DOT] c) as (p & -> & _). simpl.
  rewrite Hc. simpl. eauto.
Qed.

Lemma main_loop_without_section lines idxs :
  (forall j, section_match (line_at lines j) = None) ->
  forall st,
    Ancestor.code (current_section st) = [] ->
    exists st',
      main_loop lines idxs st = Ok st' /\ activities st' = activities st.
Proof.
  intros Hs. induction idxs as [|i idxs IH]; intros st Hc; simpl; [eauto|].
  destruct (step_without_section lines i st Hc (Hs i)) as (st1 & -> & Hc1 & Ha).
  simpl. destruct (IH st1 Hc1) as (st' & -> & Ha'). exists st'.
  split; [reflexivity | congruence].
Qed.

(** A text without a section heading gives the empty list: the function
    returns, whatever class headings and activity lines the text holds. *)
Theorem no_section_heading_no_record (text : str) :
  (forall j, section_match (line_at (Py.split [LF] text) j) = None) ->
  parse_nace_activities text = Ok [].
Proof.
  intros Hs. unfold parse_nace_activities, parse_lines.
  destruct (main_loop_without_section (Py.split [LF] text)
              (Py.range 0 (length (Py.split [LF] text))) Hs
              init_state eq_refl) as (st & -> & Ha).
  simpl. rewrite Ha. reflexivity.
Qed.

Lemma no_section_heading_no_record_witness :
  parse_nace_activities headless_document = Ok [].
Proof.
  apply no_section_heading_no_record. intros j.
  destruct j as [|[|[|[|[|[|j]]]]]]; try (vm_compute; reflexivity).
  rewrite line_at_beyond; [reflexivity | vm_compute; lia].
Defined.

Lemma parse_returns_without_star_witness :
  exists out, parse_nace_activities unordered_headings = Ok out.
Proof.
  apply parse_returns_without_star. intros j.
  destruct j as [|[|[|[|[|j]]]]]; try (vm_compute; reflexivity).
  unfold no_star_line. rewrite nth_overflow; [reflexivity | vm_compute; lia].
Defined.

(** ** Which class headings are recorded *)

Lemma section_before_dec lines k :
  no_section_before lines k \/ section_seen lines k.
Proof.
  induction k as [|k [IH|(s & Hs & H)]].
  - left. intros j Hj. lia.
  - destruct (section_match (line_at lines k)) eqn:E.
    + right. exists k. split; [lia | congruence].
    + left. intros j Hj.
      destruct (Nat.eq_dec j k) as [->|]; [exact E | apply IH; lia].
  - right. exists s. split; [lia | exact H].
Qed.

Lemma section_inv_truthy lines i st :
  section_inv lines i st -> section_seen lines i ->
  Py.truthy (Ancestor.code (current_section st)) = true.
Proof.
  intros [[_ Hn]|(s0 & _ & Hm & _)] (s & Hs & H).
  - exfalso. apply H, Hn, Hs.
  - destruct (section_match_code _ _ _ Hm) as (l & -> & _). reflexivity.
Qed.

Lemma section_inv_seen lines i st :
  section_inv lines i st ->
  Py.truthy (Ancestor.code (current_section st)) = true ->
  section_seen lines i.
Proof.
  intros [[Hc _]|(s & Hs & Hm & _)] T.
  - rewrite Hc in T. discriminate.
  - exists s. split; [exact Hs | congruence].
Qed.

Lemma section_inv_step lines i st st' :
  section_inv lines i st -> step lines i st = Ok st' ->
  section_inv lines (S i) st'.
Proof.
  intros HS H. apply step_effect in H as [H1 _]. unfold section_inv.
  destruct H1 as [[Hn ->]|(c & nm & d & Hm & -> & _)].
  - destruct HS as [[Hc Hb]|(s & Hs & Hms & Hb)].
    + left. split; [assumption|]. intros j Hj.
      destruct (Nat.eq_dec j i) as [->|]; [assumption | apply Hb; lia].
    + right. exists s. repeat split; [lia | assumption |].
      intros j Hj.
      destruct (Nat.eq_dec j i) as [->|]; [assumption | apply Hb; lia].
  - right. exists i. simpl. repeat split; [lia | assumption |].
    intros j Hj. lia.
Qed.

Lemma first_inv_step lines i st st' :
  first_inv lines i st -> step lines i st = Ok st' ->
  first_inv lines (S i) st'.
Proof.
  intros (HS & HC & HF) H.
  split; [exact (section_inv_step lines i st st' HS H)|].
  split.
  - intros k c nm Hk Hm Hseen.
    assert (Hmono : forall x, In x (processed_codes st) ->
                              In x (processed_codes st')).
    { intros x Hx. apply step_effect in H as [_ [[_ ->]|[act Ha]]];
        [exact Hx|].
      destruct Ha as (_ & _ & _ & _ & _ & _ & _ & _ & ->). right. exact Hx. }
    destruct (Nat.eq_dec k i) as [->|Hne];
      [|apply Hmono, (HC k c nm); [lia | exact Hm | exact Hseen]].
    assert (T := section_inv_truthy _ _ _ HS Hseen).
    rewrite (step_class lines i st c nm Hm) in H.
    destruct (Py.mem c (processed_codes st)) eqn:M.
    + apply mem_In in M.
      apply class_branch_effect in H as [_ [[_ ->]|(act & _ & _ & _ & _ & _ & _ & _ & _ & _ & ->)]];
        [exact M | right; exact M].
    + destruct (class_branch_emit _ _ _ _ _ _ _ Hm M T H) as (act & _ & Ha).
      apply class_branch_effect in H
        as [_ [[Ha' _]|(act' & _ & _ & _ & _ & _ & _ & _ & _ & _ & ->)]];
        [|left; reflexivity].
      rewrite Ha' in Ha. apply (f_equal (@length record)) in Ha.
      rewrite length_app in Ha. simpl in Ha. lia.
  - apply step_effect in H as [_ [[-> _]|[act Ha]]].
    + intros r Hr. destruct (HF r Hr) as (c & Hc & Hrest).
      exists c. split; [lia | exact Hrest].
    + destruct Ha as (Hm & M & T & _ & _ & _ & _ & -> & _).
      intros r Hr. apply in_app_or in Hr as [Hr|[<-|[]]].
      * destruct (HF r Hr) as (c & Hc & Hrest).
        exists c. split; [lia | exact Hrest].
      * exists i. split; [lia|]. split; [exact Hm|].
        split; [apply (section_inv_seen _ _ _ HS T)|].
        intros k nm Hk Hmk.
        destruct (section_before_dec lines k) as [Hn|Hseen]; [exact Hn|].
        exfalso. apply mem_not_In in M. apply M.
        apply (HC k _ nm); assumption.
Qed.

Lemma first_inv_final lines st :
  parse_lines lines = Ok st -> first_inv lines (length lines) st.
Proof.
  intros H.
  apply (parse_lines_ind (fun i s => first_inv lines i s) lines) in H;
    [assumption | |].
  - split; [left; split; [reflexivity | intros j Hj; lia]|].
    split; [intros k c nm Hk; lia | intros r []].
  - intros i s s'. apply first_inv_step.
Qed.

(** Whenever the function returns, every class heading that comes after a
    section heading has its class code in the output. *)
Theorem class_after_section_recorded
    (text : str) (out : list record) (s k : nat) (c nm : str) :
  parse_nace_activities text = Ok out ->
  s < k ->
  section_match (line_at (Py.split [LF] text) s) <> None ->
  class_match (line_at (Py.split [LF] text) k) = Some (c, nm) ->
  In c (map class_code out).
Proof.
  intros H Hsk Hs Hc. apply parse_inv in H as (st & Hst & ->).
  assert (Hk := class_match_in_range _ _ _ _ Hc).
  destruct (first_inv_final _ _ Hst) as (_ & HC & _).
  destruct (unique_inv_final _ _ Hst) as (_ & _ & Hp).
  destruct (Hp c (HC k c nm Hk Hc (ex_intro _ s (conj Hsk Hs))))
    as (r & Hr & <-).
  apply in_map, In_sorted, Hr.
Qed.

Lemma class_after_section_recorded_witness :
  In (lit "10.11") (map class_code unordered_headings_records).
Proof.
  apply (class_after_section_recorded unordered_headings
           unordered_headings_records 0 2
           (lit "10.11") (lit "Processing of meat")).
  - vm_compute; reflexivity.
  - lia.
  - vm_compute; discriminate.
  - vm_compute; reflexivity.
Defined.

(** Whenever the function returns, each record carries the name of the
    first heading of its class that comes after a section heading: the
    headings of that class before it all come before every section heading,
    and the headings after it are passed over. *)
Theorem first_heading_of_class_wins
    (text : str) (out : list record) (r : record) :
  parse_nace_activities text = Ok out -> In r out ->
  exists c,
    c < length (Py.split [LF] text) /\
    class_match (line_at (Py.split [LF] text) c)
      = Some (class_code r, class_name r) /\
    section_seen (Py.split [LF] text) c /\
    forall k nm, k < c ->
      class_match (line_at (Py.split [LF] text) k) = Some (class_code r, nm) ->
      no_section_before (Py.split [LF] text) k.
Proof.
  intros H Hr. apply parse_inv in H as (st & Hst & ->).
  apply (proj1 (In_sorted _ _)) in Hr.
  destruct (first_inv_final _ _ Hst) as (_ & _ & HF). exact (HF r Hr).
Qed.

Lemma first_heading_of_class_wins_witness :
  exists c,
    c < length (Py.split [LF] repeated_heading) /\
    class_match (line_at (Py.split [LF] repeated_heading) c)
      = Some (lit "01.11", lit "Growing of cereals") /\
    section_seen (Py.split [LF] repeated_heading) c /\
    forall k nm, k < c ->
      class_match (line_at (Py.split [LF] repeated_heading) k)
        = Some (lit "01.11", nm) ->
      no_section_before (Py.split [LF] repeated_heading) k.
Proof.
  apply (first_heading_of_class_wins repeated_heading
           repeated_heading_records
           (hd blank_record repeated_heading_records)).
  - vm_compute; reflexivity.
  - left; reflexivity.
Defined.

(** ** Where the names and descriptions of a record come from *)

Lemma reset_to_code c cur : Ancestor.code (reset_to c cur) = c.
Proof.
  unfold reset_to. destruct (Py.eqb c (Ancestor.code cur)) eqn:E; simpl;
    [symmetry; apply eqb_eq, E | reflexivity].
Qed.

Lemma reset_to_named matcher marker lines c cur :
  named_or_blank matcher marker lines cur ->
  named_or_blank matcher marker lines (reset_to c cur).
Proof.
  unfold reset_to. destruct (Py.eqb c (Ancestor.code cur)); simpl; [auto|].
  intros _. left. split; reflexivity.
Qed.

Lemma named_eta matcher marker lines a c :
  Ancestor.code a = c ->
  named_or_blank matcher marker lines a ->
  named_or_blank matcher marker lines
    (Ancestor.mk c (Ancestor.name a) (Ancestor.description a)).
Proof. intros <-. destruct a; auto. Qed.

Lemma provenance_step lines i st st' :
  provenance_inv lines st -> step lines i st = Ok st' ->
  provenance_inv lines st'.
Proof.
  intros (HS & HD & HG & HR) H. unfold provenance_inv.
  apply step_inv in H
    as [->|[(c & nm & d & Hm & Hd & ->)|[(c & nm & d & Hm & Hd & ->)|
       [(c & nm & d & Hm & Hd & ->)|(c & nm & Hm & H)]]]];
    cbn [activities current_section current_division current_group].
  - auto.
  - split; [right; exists i; auto | auto].
  - split; [|split]; [| right; exists i; auto |]; auto.
  - split; [|split; [|split]]; [| | right; exists i; auto |]; auto.
  - apply class_branch_inv in H
      as [->|(dc & Hdc & _ & [->|(act & T & Hact & ->)])];
      cbn [activities current_section current_division current_group].
    + auto.
    + split; [|split; [|split]]; auto using reset_to_named.
    + split; [|split; [|split]]; auto using reset_to_named.
      intros r Hr.
      apply in_app_or in Hr as [Hr|[<-|[]]]; [apply HR, Hr|].
      apply activity_loop_heading in Hact.
      destruct Hact as (E1 & E2 & E3 & E4 & E5 & E6 & E7 & E8 & E9 & _).
      unfold record_provenance.
      rewrite <- E1, <- E2, <- E3, <- E4, <- E5, <- E6, <- E7, <- E8, <- E9.
      cbn [new_record section_code section_name section_description
           division_code division_name division_description
           group_code group_name group_description].
      split; [|split].
      * destruct HS as [HS|HS]; [rewrite HS in T; discriminate | exact HS].
      * apply named_eta; [apply reset_to_code | apply reset_to_named, HD].
      * apply named_eta; [apply reset_to_code | apply reset_to_named, HG].
Qed.

Lemma provenance_final lines st :
  parse_lines lines = Ok st -> provenance_inv lines st.
Proof.
  intros H.
  apply (parse_lines_ind (fun _ s => provenance_inv lines s) lines) in H;
    [assumption | |].
  - split; [left; reflexivity|].
    split; [left; split; reflexivity|].
    split; [left; split; reflexivity | intros r []].
  - intros i s s'. apply provenance_step.
Qed.

(** Whenever the function returns, the section code, name and description
    of a record are those of one section heading: the code and name the
    pattern captured there, and the description the forward scan from that
    line found. *)
Theorem record_section_from_heading
    (text : str) (out : list record) (r : record) :
  parse_nace_activities text = Ok out -> In r out ->
  exists s,
    section_match (line_at (Py.split [LF] text) s)
      = Some (section_code r, section_name r) /\
    scan_description (Py.split [LF] text) s (lit "This section includes")
      = Ok (section_description r).
Proof.
  intros H Hr. apply parse_inv in H as (st & Hst & ->).
  apply (proj1 (In_sorted _ _)) in Hr.
  destruct (provenance_final _ _ Hst) as (_ & _ & _ & HR).
  destruct (HR r Hr) as (Hs & _). exact Hs.
Qed.

Lemma record_section_from_heading_witness :
  exists s,
    section_match (line_at (Py.split [LF] spec_scenario) s)
      = Some (section_code spec_scenario_first,
              section_name spec_scenario_first) /\
    scan_description (Py.split [LF] spec_scenario) s
      (lit "This section includes")
      = Ok (section_description spec_scenario_first).
Proof.
  apply (record_section_from_heading spec_scenario spec_scenario_records).
  - vm_compute; reflexivity.
  - left; reflexivity.
Defined.

(** Whenever the function returns, the division name and description of a
    record are either both empty or those of a division heading with the
    division code of the record; and likewise the group name and description
    with a group heading.  A record never carries the name of a division or
    group with another code. *)
Theorem record_ancestors_from_headings
    (text : str) (out : list record) (r : record) :
  parse_nace_activities text = Ok out -> In r out ->
  ((division_name r = [] /\ division_description r = []) \/
   exists d,
     division_match (line_at (Py.split [LF] text) d)
       = Some (division_code r, division_name r) /\
     scan_description (Py.split [LF] text) d (lit "This division includes")
       = Ok (division_description r)) /\
  ((group_name r = [] /\ group_description r = []) \/
   exists g,
     group_match (line_at (Py.split [LF] text) g)
       = Some (group_code r, group_name r) /\
     scan_description (Py.split [LF] text) g (lit "This group includes")
       = Ok (group_description r)).
Proof.
  intros H Hr. apply parse_inv in H as (st & Hst & ->).
  apply (proj1 (In_sorted _ _)) in Hr.
  destruct (provenance_final _ _ Hst) as (_ & _ & _ & HR).
  destruct (HR r Hr) as (_ & Hd & Hg). split; assumption.
Qed.

Lemma record_ancestors_from_headings_witness :
  ((division_name spec_scenario_first = [] /\
    division_description spec_scenario_first = []) \/
   exists d,
     division_match (line_at (Py.split [LF] spec_scenario) d)
       = Some (division_code spec_scenario_first,
               division_name spec_scenario_first) /\
     scan_description (Py.split [LF] spec_scenario) d
       (lit "This division includes")
       = Ok (division_description spec_scenario_first)) /\
  ((group_name spec_scenario_first = [] /\
    group_description spec_scenario_first = []) \/
   exists g,
     group_match (line_at (Py.split [LF] spec_scenario) g)
       = Some (group_code spec_scenario_first,
               group_name spec_scenario_first) /\
     scan_description (Py.split [LF] spec_scenario) g
       (lit "This group includes")
       = Ok (group_description spec_scenario_first)).
Proof.
  apply (record_ancestors_from_headings spec_scenario spec_scenario_records).
  - vm_compute; reflexivity.
  - left; reflexivity.
Defined.

(** ** How far the forward scans read *)

(** The activity sub-parse reads the lines only at the indices it visits. *)
Lemma activity_loop_ext (l1 l2 : list str) js :
  (forall j, In j js -> nth j l1 ([] : str) = nth j l2 ([] : str)) ->
  forall md cur act,
    activity_loop l1 js md cur act = activity_loop l2 js md cur act.
Proof.
  induction js as [|j js IH]; intros Hj md cur act; [reflexivity|].
  assert (IH' := IH (fun k Hk => Hj k (or_intror Hk))).
  cbn [activity_loop]. rewrite (Hj j (or_introl eq_refl)).
  destruct (block_ends (Py.strip (nth j l2 []))) as [[|]|e];
    cbn [bind]; try reflexivity.
  repeat match goal with
    | |- context [if ?b then _ else _] => destruct b
    | |- context [match ?o with Some _ => _ | None => _ end] => destruct o
    end; try apply IH'.
  all: destruct (append_subactivity _ _ act); cbn [bind];
    [apply IH' | reflexivity].
Qed.

Lemma In_range j a b : In j (Py.range a b) -> a <= j < b.
Proof. unfold Py.range. rewrite in_seq. lia. Qed.

(** The activity lists of a class depend on the 49 lines after its heading
    only: the lines from index [i + 50] on play no part. *)
Theorem activity_block_window (lines : list str) (i : nat) (act : record) :
  parse_activity_block lines i act
  = parse_activity_block (firstn (i + 50) lines) i act.
Proof.
  unfold parse_activity_block. rewrite length_firstn.
  replace (Nat.min (Nat.min (i + 50) (length lines)) (i + 50))
    with (Nat.min (length lines) (i + 50)) by lia.
  apply activity_loop_ext. intros j Hj. apply In_range in Hj.
  rewrite nth_firstn.
  destruct (Nat.ltb_spec j (i + 50)); [reflexivity | lia].
Qed.

(** A line on which the stop test holds ends the sub-parse. *)
Lemma activity_loop_stops lines j js2 :
  block_ends (line_at lines j) = Ok true ->
  forall js1 md cur act,
    activity_loop lines (js1 ++ j :: js2) md cur act
    = activity_loop lines js1 md cur act.
Proof.
  intros Hstop. unfold line_at in Hstop. induction js1 as [|k js1 IH]; intros md cur act.
  - cbn [app activity_loop]. rewrite Hstop. reflexivity.
  - cbn [app activity_loop].
    destruct (block_ends (Py.strip (nth k lines []))) as [[|]|e];
      cbn [bind]; try reflexivity.
    repeat match goal with
      | |- context [if ?b then _ else _] => destruct b
      | |- context [match ?o with Some _ => _ | None => _ end] => destruct o
      end; try apply IH.
    all: destruct (append_subactivity _ _ act); cbn [bind];
      [apply IH | reflexivity].
Qed.

Lemma block_ends_in_range lines j :
  block_ends (line_at lines j) = Ok true -> j < length lines.
Proof.
  intros H. destruct (Nat.lt_ge_cases j (length lines)) as [|G]; [assumption|].
  rewrite (line_at_beyond _ _ G) in H. discriminate.
Qed.

(** The activity lists of a class stop at the next heading: when the line
    at index [j], after the class heading at [i], is the heading of a class
    or starts with "#", the lines from [j] on play no part. *)
Theorem activity_block_stops_at_heading
    (lines : list str) (i j : nat) (act : record) :
  i < j ->
  block_ends (line_at lines j) = Ok true ->
  parse_activity_block lines i act
  = parse_activity_block (firstn j lines) i act.
Proof.
  intros Hij Hstop. assert (Hj := block_ends_in_range _ _ Hstop).
  unfold parse_activity_block. rewrite length_firstn.
  replace (Nat.min (Nat.min j (length lines)) (i + 50))
    with (Nat.min j (i + 50)) by lia.
  assert (Hext : forall k, k < j ->
            nth k lines ([] : str) = nth k (firstn j lines) ([] : str)).
  { intros k Hk. rewrite nth_firstn.
    destruct (Nat.ltb_spec k j); [reflexivity | lia]. }
  destruct (Nat.le_gt_cases (i + 50) j) as [Hle|Hgt].
  - replace (Nat.min (length lines) (i + 50)) with (i + 50) by lia.
    replace (Nat.min j (i + 50)) with (i + 50) by lia.
    apply activity_loop_ext. intros k Hk. apply In_range in Hk.
    apply Hext. lia.
  - replace (Nat.min (length lines) (i + 50))
      with (i + 1 + ((j - (i + 1)) + S (Nat.min (length lines) (i + 50) - S j)))
      by lia.
    replace (Nat.min j (i + 50)) with j by lia.
    unfold Py.range.
    replace (i + 1 + (j - (i + 1) + S (Nat.min (length lines) (i + 50) - S j))
             - (i + 1))
      with ((j - (i + 1)) + S (Nat.min (length lines) (i + 50) - S j)) by lia.
    rewrite seq_app. cbn [seq].
    replace (i + 1 + (j - (i + 1))) with j by lia.
    rewrite (activity_loop_stops lines j _ Hstop).
    apply activity_loop_ext. intros k Hk. apply in_seq in Hk.
    apply Hext. lia.
Qed.

Lemma activity_block_stops_at_heading_witness :
  parse_activity_block (Py.split [LF] spec_scenario) 5 blank_record
  = parse_activity_block (firstn 11 (Py.split [LF] spec_scenario)) 5
      blank_record.
Proof.
  apply activity_block_stops_at_heading;
    [lia | vm_compute; reflexivity].
Defined.

Lemma scan_loop_ext (l1 l2 : list str) marker js :
  (forall j, In j js -> firstn 3 (skipn j l1) = firstn 3 (skipn j l2)) ->
  scan_loop l1 marker js = scan_loop l2 marker js.
Proof.
  induction js as [|j js IH]; intros Hj; [reflexivity|].
  cbn [scan_loop]. rewrite (Hj j (or_introl eq_refl)).
  rewrite (IH (fun k Hk => Hj k (or_intror Hk))). reflexivity.
Qed.

(** The description of a heading at line [i] depends on the 11 lines after
    it only: the nine windows start at [i + 1] to [i + 9] and are three
    lines long, so the lines from index [i + 12] on play no part. *)
Theorem scan_description_window (lines : list str) (i : nat) (marker : str) :
  scan_description lines i marker
  = scan_description (firstn (i + 12) lines) i marker.
Proof.
  unfold scan_description. rewrite length_firstn.
  replace (Nat.min (i + 10) (Nat.min (i + 12) (length lines)))
    with (Nat.min (i + 10) (length lines)) by lia.
  apply scan_loop_ext. intros j Hj. apply In_range in Hj.
  rewrite skipn_firstn_comm, firstn_firstn.
  replace (Nat.min 3 (i + 12 - j)) with 3 by lia. reflexivity.
Qed.

(** ** The texts of the activity lists *)

Lemma drop_while_no_leading p s : no_leading p (Py.drop_while p s).
Proof.
  induction s as [|c s IH]; simpl; [exact I|].
  destruct (p c) eqn:E; [exact IH | exact E].
Qed.

Lemma drop_while_suffix p s : exists t, s = t ++ Py.drop_while p s.
Proof.
  induction s as [|c s [t IH]]; simpl; [exists []; reflexivity|].
  destruct (p c); [|exists []; reflexivity].
  exists (c :: t). simpl. f_equal. exact IH.
Qed.

Lemma rstrip_no_trailing p s :
  no_trailing p (rev (Py.drop_while p (rev s))).
Proof.
  unfold no_trailing. rewrite rev_involutive. apply drop_while_no_leading.
Qed.

Lemma rstrip_prefix p s : exists t, s = rev (Py.drop_while p (rev s)) ++ t.
Proof.
  destruct (drop_while_suffix p (rev s)) as [t E].
  exists (rev t). rewrite <- rev_app_distr, <- E, rev_involutive. reflexivity.
Qed.

Lemma rstrip_keeps_no_leading q p s :
  no_leading q s -> no_leading q (rev (Py.drop_while p (rev s))).
Proof.
  intros H. destruct (rstrip_prefix p s) as [t E].
  destruct (rev (Py.drop_while p (rev s))) as [|c r]; [exact I|].
  rewrite E in H. exact H.
Qed.

Lemma activity_text_clean line :
  clean_activity
    (Py.rstrip_chars [COLON] (Py.lstrip_chars [HYPHEN; SPACE] line)).
Proof.
  split.
  - apply rstrip_keeps_no_leading, drop_while_no_leading.
  - apply rstrip_no_trailing.
Qed.

Lemma subactivity_text_clean line :
  clean_text (Py.strip (Py.lstrip_chars [STAR; SPACE] line)).
Proof.
  split.
  - apply rstrip_keeps_no_leading, drop_while_no_leading.
  - apply rstrip_no_trailing.
Qed.

Lemma append_to_last_clean l sub l' :
  append_to_last l sub = Ok l' ->
  Forall clean_entry l -> clean_text sub -> Forall clean_entry l'.
Proof.
  unfold append_to_last. intros H Hl Hs.
  destruct (rev l) as [|e before] eqn:E; [discriminate|].
  injection H as <-.
  assert (Hrev : Forall clean_entry (e :: before)).
  { rewrite <- E. apply Forall_rev, Hl. }
  inversion Hrev as [|? ? (Ha & Hsubs) Hb]; subst.
  apply Forall_app. split; [apply Forall_rev, Hb|].
  constructor; [|constructor]. split; [exact Ha|]. simpl.
  apply Forall_app. split; [exact Hsubs | constructor; [exact Hs | constructor]].
Qed.

Lemma activity_loop_clean lines js :
  forall md cur act act',
    activity_loop lines js md cur act = Ok act' ->
    clean_lists act -> clean_lists act'.
Proof.
  induction js as [|j js IH]; intros md cur act act' H Hc;
    cbn [activity_loop] in H.
  - injection H as <-. exact Hc.
  - apply bind_Ok in H as ([|] & _ & H); [injection H as <-; exact Hc|].
    repeat match type of H with
      | (if ?b then _ else _) = _ => destruct b
      | match ?o with Some _ => _ | None => _ end = _ => destruct o as [m|]
      end; try (eapply IH; eassumption).
    + eapply IH; [eassumption|]. destruct Hc as [Hi He].
      destruct m; split; simpl; try assumption;
        (apply Forall_app; split; [assumption|]);
        (constructor; [|constructor]);
        (split; [apply activity_text_clean | constructor]).
    + apply bind_Ok in H as (act1 & H1 & H). eapply IH; [eassumption|].
      destruct Hc as [Hi He].
      destruct m; simpl in H1; apply bind_Ok in H1 as (l & Hl & H1);
        injection H1 as <-; split; simpl; try assumption;
        eapply append_to_last_clean; eauto using subactivity_text_clean.
Qed.

Lemma clean_step lines i st st' :
  Forall clean_record (activities st) -> step lines i st = Ok st' ->
  Forall clean_record (activities st').
Proof.
  intros HF H.
  apply step_inv in H
    as [->|[(c & nm & d & _ & _ & ->)|[(c & nm & d & _ & _ & ->)|
       [(c & nm & d & _ & _ & ->)|(c & nm & _ & H)]]]]; try exact HF.
  apply class_branch_inv in H
    as [->|(dc & _ & _ & [->|(act & _ & Hact & ->)])]; try exact HF.
  cbn [activities]. apply Forall_app. split; [exact HF|].
  constructor; [|constructor]. unfold parse_activity_block in Hact. split.
  - apply activity_loop_heading in Hact.
    destruct Hact as (_ & _ & _ & _ & _ & _ & _ & _ & _ & _ & _ & E).
    rewrite <- E. reflexivity.
  - eapply activity_loop_clean; [exact Hact|]. split; constructor.
Qed.

Lemma clean_final lines st :
  parse_lines lines = Ok st -> Forall clean_record (activities st).
Proof.
  intros H.
  apply (parse_lines_ind (fun _ s => Forall clean_record (activities s)) lines)
    in H; [assumption | constructor |].
  intros i s s'. apply clean_step.
Qed.

(** Whenever the function returns, the class description of every record is
    the empty string: nothing in the function fills it. *)
Theorem class_description_empty (text : str) (out : list record) (r : record) :
  parse_nace_activities text = Ok out -> In r out ->
  class_description r = [].
Proof.
  intros H Hr. apply parse_inv in H as (st & Hst & ->).
  apply (proj1 (In_sorted _ _)) in Hr. apply clean_final in Hst.
  rewrite Forall_forall in Hst. exact (proj1 (Hst r Hr)).
Qed.

Lemma class_description_empty_witness :
  class_description spec_scenario_first = [].
Proof.
  apply (class_description_empty spec_scenario spec_scenario_records).
  - vm_compute; reflexivity.
  - left; reflexivity.
Defined.

(** Whenever the function returns, in every included or excluded entry of
    every record the activity text does not start with "-" or a blank and
    does not end with ":", and no sub-activity starts or ends with
    whitespace. *)
Theorem activity_texts_clean
    (text : str) (out : list record) (r : record) (e : entry) :
  parse_nace_activities text = Ok out -> In r out ->
  In e (included_activities r ++ excluded_activities r) ->
  no_leading (fun c => Py.mem_char c [HYPHEN; SPACE]) (activity e) /\
  no_trailing (fun c => Py.mem_char c [COLON]) (activity e) /\
  Forall (fun sub => no_leading isspace_char sub /\
                     no_trailing isspace_char sub) (subactivities e).
Proof.
  intros H Hr He. apply parse_inv in H as (st & Hst & ->).
  apply (proj1 (In_sorted _ _)) in Hr. apply clean_final in Hst.
  rewrite Forall_forall in Hst. destruct (Hst r Hr) as (_ & Hi & Hx).
  rewrite Forall_forall in Hi, Hx.
  apply in_app_or in He as [He|He]; [apply Hi in He | apply Hx in He];
    destruct He as ((Ha & Hb) & Hs); auto.
Qed.

Lemma activity_texts_clean_witness :
  no_leading (fun c => Py.mem_char c [HYPHEN; SPACE])
    (lit "Growing of wheat") /\
  no_trailing (fun c => Py.mem_char c [COLON]) (lit "Growing of wheat") /\
  Forall (fun sub => no_leading isspace_char sub /\
                     no_trailing isspace_char sub) [lit "Winter wheat"].
Proof.
  apply (activity_texts_clean spec_scenario spec_scenario_records
           spec_scenario_first
           (mk_entry (lit "Growing of wheat") [lit "Winter wheat"])).
  - vm_compute; reflexivity.
  - left; reflexivity.
  - left; reflexivity.
Defined.

(* ================================================================== *)
(** * Part 14: the report of validate_nace_activities *)
(* ================================================================== *)

Lemma to_set_In x l : In x (to_set l) <-> In x l.
Proof.
  induction l as [|y l IH]; simpl; [tauto|].
  destruct (Py.mem y l) eqn:M.
  - apply mem_In in M. rewrite IH. split; [auto|].
    intros [<-|H]; assumption.
  - simpl. rewrite IH. tauto.
Qed.

Lemma to_set_NoDup l : NoDup (to_set l).
Proof.
  induction l as [|y l IH]; simpl; [constructor|].
  destruct (Py.mem y l) eqn:M; [exact IH|].
  constructor; [|exact IH]. rewrite to_set_In. apply mem_not_In, M.
Qed.

Lemma to_set_id l : NoDup l -> to_set l = l.
Proof.
  induction 1 as [|x l Hx Hl IH]; simpl; [reflexivity|].
  rewrite (proj2 (mem_not_In x l) Hx), IH. reflexivity.
Qed.

Lemma insert_str_perm x l : Permutation (insert_str x l) (x :: l).
Proof.
  induction l as [|y l IH]; simpl; [reflexivity|].
  destruct (Py.leb x y); [reflexivity|]. rewrite IH. apply perm_swap.
Qed.

Lemma sorted_perm l : Permutation (sorted l) l.
Proof.
  induction l as [|x l IH]; simpl; [constructor|].
  rewrite insert_str_perm. constructor. exact IH.
Qed.

Lemma insert_str_sorted x l :
  StronglySorted str_le l -> StronglySorted str_le (insert_str x l).
Proof.
  induction 1 as [|y l Hs IH Hy]; simpl.
  - repeat constructor.
  - destruct (Py.leb x y) eqn:E.
    + constructor; [constructor; assumption|].
      constructor; [exact E|].
      eapply Forall_impl; [|exact Hy]. intros z Hz.
      unfold str_le in *. eapply leb_trans; eassumption.
    + constructor; [assumption|].
      eapply Permutation_Forall; [symmetry; apply insert_str_perm|].
      constructor; [|assumption]. unfold str_le.
      destruct (leb_total x y); congruence.
Qed.

Lemma sorted_sorted l : StronglySorted str_le (sorted l).
Proof.
  induction l as [|x l IH]; simpl; [constructor | apply insert_str_sorted, IH].
Qed.

Lemma sorted_id l : StronglySorted str_le l -> sorted l = l.
Proof.
  induction 1 as [|x l Hs IH Hx]; [reflexivity|].
  change (sorted (x :: l)) with (insert_str x (sorted l)). rewrite IH.
  destruct l as [|y l]; [reflexivity|]. simpl.
  inversion Hx as [|? ? E _]; subst. unfold str_le in E. rewrite E.
  reflexivity.
Qed.

Lemma distinct_sorted_of l : distinct_sorted (sorted (to_set l)) l.
Proof.
  split; [|split].
  - eapply Permutation_NoDup; [symmetry; apply sorted_perm|].
    apply to_set_NoDup.
  - apply sorted_sorted.
  - intros x. split; intros H.
    + apply to_set_In. eapply Permutation_in; [apply sorted_perm | exact H].
    + eapply Permutation_in; [symmetry; apply sorted_perm|].
      apply to_set_In, H.
Qed.

Lemma sorted_length l : length (sorted l) = length l.
Proof. apply Permutation_length, sorted_perm. Qed.

(** The report gives, for sections, divisions, groups and classes, the
    number of distinct codes among the records, with the distinct codes in
    ascending order (all of them for sections, the first five for the
    others). *)
Theorem validate_reports_distinct_codes (activities : list record) :
  exists ss ds gs cs,
    distinct_sorted ss (map section_code activities) /\
    distinct_sorted ds (map division_code activities) /\
    distinct_sorted gs (map group_code activities) /\
    distinct_sorted cs (map class_code activities) /\
    firstn 8 (fst (validate_nace_activities activities)) =
      [ print_total (length activities);
        print_expected;
        print_breakdown;
        print_sections (length ss) ss;
        print_divisions (length ds) (firstn 5 ds);
        print_groups (length gs) (firstn 5 gs);
        print_classes (length cs) (firstn 5 cs);
        print_per_section ].
Proof.
  exists (sorted (to_set (map section_code activities))),
         (sorted (to_set (map division_code activities))),
         (sorted (to_set (map group_code activities))),
         (sorted (to_set (map class_code activities))).
  repeat (split; [apply distinct_sorted_of|]).
  rewrite !sorted_length. reflexivity.
Qed.

(** ** The count of classes per section *)

Lemma dict_get_count_up s d k :
  dict_get (count_up s d) k = dict_get d k + (if Py.eqb s k then 1 else 0).
Proof.
  unfold dict_get. induction d as [|[k0 n] d IH]; simpl.
  - destruct (Py.eqb s k); reflexivity.
  - destruct (Py.eqb k0 s) eqn:E0; simpl.
    + apply eqb_eq in E0. subst k0.
      destruct (Py.eqb s k); simpl; lia.
    + destruct (Py.eqb k0 k) eqn:E1; simpl; [|exact IH].
      destruct (Py.eqb s k) eqn:E2; [|lia].
      apply eqb_eq in E1, E2. subst. rewrite eqb_refl in E0. discriminate.
Qed.

Lemma count_up_keys s d k :
  In k (map fst (count_up s d)) <-> k = s \/ In k (map fst d).
Proof.
  induction d as [|[k0 n] d IH]; simpl.
  - intuition.
  - destruct (Py.eqb k0 s) eqn:E0; simpl.
    + apply eqb_eq in E0. subst. intuition.
    + rewrite IH. intuition.
Qed.

Lemma count_up_NoDup s d :
  NoDup (map fst d) -> NoDup (map fst (count_up s d)).
Proof.
  induction d as [|[k0 n] d IH]; simpl; intros H.
  - repeat constructor. intros [].
  - destruct (Py.eqb k0 s) eqn:E0; simpl; [exact H|].
    inversion H as [|? ? Hk Hd]; subst. constructor; [|apply IH, Hd].
    rewrite count_up_keys. intros [->|Hin]; [|contradiction].
    rewrite eqb_refl in E0. discriminate.
Qed.

Lemma section_counts_spec acts :
  forall d,
    NoDup (map fst d) ->
    let d' := fold_left (fun d a => count_up (section_code a) d) acts d in
    NoDup (map fst d') /\
    (forall k, In k (map fst d') <->
               In k (map fst d) \/ In k (map section_code acts)) /\
    (forall k, dict_get d' k = dict_get d k + classes_in_section k acts).
Proof.
  induction acts as [|a acts IH]; intros d Hd; simpl.
  - split; [exact Hd|].
    split; [tauto | intros k; unfold classes_in_section; simpl; lia].
  - destruct (IH (count_up (section_code a) d) (count_up_NoDup _ _ Hd))
      as (H1 & H2 & H3).
    split; [exact H1|]. split.
    + intros k. rewrite H2, count_up_keys. intuition.
    + intros k. rewrite H3, dict_get_count_up.
      unfold classes_in_section. simpl.
      destruct (Py.eqb (section_code a) k); simpl; lia.
Qed.

Lemma indicator_sum s ks :
  NoDup ks -> In s ks ->
  list_sum (map (fun k => if Py.eqb s k then 1 else 0) ks) = 1.
Proof.
  induction 1 as [|k ks Hk Hnd IH]; intros Hin; [destruct Hin|]. simpl.
  destruct Hin as [->|Hin].
  - rewrite eqb_refl.
    replace (list_sum _) with 0; [reflexivity|]. symmetry.
    clear IH Hnd. induction ks as [|k ks IH]; [reflexivity|]. simpl.
    destruct (Py.eqb s k) eqn:E;
      [apply eqb_eq in E; subst; exfalso; apply Hk; left; reflexivity|].
    apply IH. intros H. apply Hk. right. exact H.
  - destruct (Py.eqb s k) eqn:E;
      [apply eqb_eq in E; subst; contradiction|].
    apply IH, Hin.
Qed.

Lemma section_counts_sum ks acts :
  NoDup ks ->
  (forall k, In k (map section_code acts) -> In k ks) ->
  list_sum (map (fun k => classes_in_section k acts) ks) = length acts.
Proof.
  intros Hnd. induction acts as [|a acts IH]; intros Hin.
  - unfold classes_in_section. simpl. clear.
    induction ks as [|k ks IHk]; simpl; [reflexivity | exact IHk].
  - assert (E : list_sum (map (fun k => classes_in_section k (a :: acts)) ks)
               = list_sum (map (fun k => if Py.eqb (section_code a) k
                                         then 1 else 0) ks)
                 + list_sum (map (fun k => classes_in_section k acts) ks)).
    { clear. induction ks as [|k ks IHk]; [reflexivity|]. simpl.
      rewrite IHk. unfold classes_in_section. simpl.
      destruct (Py.eqb (section_code a) k); simpl; lia. }
    rewrite E, (indicator_sum (section_code a) ks Hnd), IH.
    + reflexivity.
    + intros k Hk. apply Hin. right. exact Hk.
    + apply Hin. left. reflexivity.
Qed.

(** After its eight heading lines the report has one line per distinct
    section code, in ascending order, with the number of records of that
    section; these numbers add up to the number of records. *)
Theorem validate_section_breakdown (activities : list record) :
  exists ks,
    distinct_sorted ks (map section_code activities) /\
    skipn 8 (fst (validate_nace_activities activities)) =
      map (fun k => print_section_count k (classes_in_section k activities))
        ks /\
    list_sum (map (fun k => classes_in_section k activities) ks)
      = length activities.
Proof.
  destruct (section_counts_spec activities [] (NoDup_nil _))
    as (Hnd & Hkeys & Hget).
  set (d := fold_left (fun d a => count_up (section_code a) d) activities [])
    in *.
  exists (sorted (map fst d)).
  assert (Hds : distinct_sorted (sorted (map fst d))
                  (map section_code activities)).
  { split; [|split].
    - eapply Permutation_NoDup; [symmetry; apply sorted_perm | exact Hnd].
    - apply sorted_sorted.
    - intros k. split; intros H.
      + apply (Permutation_in _ (sorted_perm _)) in H.
        apply Hkeys in H as [[]|H]. exact H.
      + apply (Permutation_in _ (Permutation_sym (sorted_perm _))).
        apply Hkeys. right. exact H. }
  split; [exact Hds|]. split.
  - unfold validate_nace_activities. cbn [fst app skipn]. fold d.
    apply map_ext. intros k. rewrite Hget. reflexivity.
  - apply section_counts_sum; [apply Hds|].
    intros k Hk. apply Hds, Hk.
Qed.

(** ** The validator on the output of the parser *)

Lemma class_codes_sorted out :
  StronglySorted class_code_le out ->
  StronglySorted str_le (map class_code out).
Proof.
  induction 1 as [|a l Hs IH Ha]; simpl; constructor; [exact IH|].
  apply Forall_map. exact Ha.
Qed.

(** On what the parser returns, the validator reports as many distinct
    classes as there are records, lists the class codes of the first five
    records as the first five classes, and returns true exactly when the
    parser found 615 classes. *)
Theorem validate_after_parse (text : str) (out : list record) :
  parse_nace_activities text = Ok out ->
  In (print_classes (length out) (firstn 5 (map class_code out)))
     (fst (validate_nace_activities out)) /\
  snd (validate_nace_activities out)
    = (length (to_set (map class_code out)) =? 615).
Proof.
  intros H.
  assert (Hnd : NoDup (map class_code out)).
  { apply parse_inv in H as (st & Hst & ->).
    apply unique_inv_final in Hst as [Hnd _].
    eapply Permutation_NoDup; [|exact Hnd].
    apply Permutation_map. symmetry. apply sort_perm. }
  assert (Hs : StronglySorted str_le (map class_code out)).
  { apply parse_inv in H as (st & _ & ->).
    apply class_codes_sorted, sort_sorted. }
  unfold validate_nace_activities. cbn [fst snd].
  rewrite (to_set_id _ Hnd), (sorted_id _ Hs), length_map.
  split; [|reflexivity]. apply in_or_app. left. simpl. auto 10.
Qed.

Lemma validate_after_parse_witness :
  In (print_classes (length spec_scenario_records)
        (firstn 5 (map class_code spec_scenario_records)))
     (fst (validate_nace_activities spec_scenario_records)) /\
  snd (validate_nace_activities spec_scenario_records)
    = (length (to_set (map class_code spec_scenario_records)) =? 615).
Proof.
  apply (validate_after_parse spec_scenario). vm_compute; reflexivity.
Defined.

(* ================================================================== *)
(** * Part 15: further properties of split_nace_by_sections *)
(* ================================================================== *)

Lemma split_segments text :
  split_nace_by_sections text
  = Ok (segments_stripped (Py.split [LF] text),
        map found_line (segments_stripped (Py.split [LF] text))).
Proof.
  unfold split_nace_by_sections.
  apply (split_loop_closed (Py.split [LF] text) []).
Qed.

Lemma returned_segments_spec text :
  returned_segments (split_nace_by_sections text)
  = segments_stripped (Py.split [LF] text).
Proof. rewrite split_segments. reflexivity. Qed.

Lemma take_skip_while {A} (p : A -> bool) l :
  take_while p l ++ skip_while p l = l.
Proof.
  induction l as [|x l IH]; simpl; [reflexivity|].
  destruct (p x); simpl; [f_equal; exact IH | reflexivity].
Qed.

Lemma concat_section_blocks lines :
  concat (section_blocks lines)
  = skip_while (fun l => negb (is_section_line l)) lines.
Proof.
  induction lines as [|l lines IH]; simpl; [reflexivity|].
  destruct (is_section_line l); simpl; [|exact IH].
  rewrite IH, take_skip_while. reflexivity.
Qed.

Lemma join_cons sep p ps :
  ps <> [] -> Py.join sep (p :: ps) = p ++ sep ++ Py.join sep ps.
Proof. destruct ps; [congruence | reflexivity]. Qed.

Lemma join_app sep x y :
  x <> [] -> y <> [] ->
  Py.join sep (x ++ y) = Py.join sep x ++ sep ++ Py.join sep y.
Proof.
  intros Hx Hy. induction x as [|p x IH]; [congruence|].
  destruct x as [|q x].
  - simpl app. rewrite join_cons by exact Hy. reflexivity.
  - change ((p :: q :: x) ++ y) with (p :: ((q :: x) ++ y)).
    rewrite !join_cons by discriminate.
    rewrite IH by discriminate. rewrite <- !app_assoc. reflexivity.
Qed.

Lemma join_concat sep (bs : list (list str)) :
  Forall (fun b => b <> []) bs ->
  Py.join sep (map (Py.join sep) bs) = Py.join sep (concat bs).
Proof.
  induction 1 as [|b bs Hb Hbs IH]; [reflexivity|].
  destruct bs as [|b2 bs].
  - simpl. rewrite app_nil_r. reflexivity.
  - change (map (Py.join sep) (b :: b2 :: bs))
      with (Py.join sep b :: map (Py.join sep) (b2 :: bs)).
    rewrite join_cons by discriminate. rewrite IH.
    change (concat (b :: b2 :: bs)) with (b ++ concat (b2 :: bs)).
    rewrite join_app; [reflexivity | exact Hb |].
    inversion Hbs as [|? ? Hb2 _]; subst. simpl.
    destruct b2; [congruence | discriminate].
Qed.

Lemma section_blocks_nonempty lines :
  Forall (fun b => b <> []) (section_blocks lines).
Proof.
  induction lines as [|l lines IH]; simpl; [constructor|].
  destruct (is_section_line l); [constructor; [discriminate | exact IH]|].
  exact IH.
Qed.

Lemma joined_contents text :
  Py.join [LF]
    (map Segment.content (returned_segments (split_nace_by_sections text)))
  = Py.join [LF]
      (map Py.strip
         (skip_while (fun l => negb (is_section_line l))
            (Py.split [LF] text))).
Proof.
  rewrite returned_segments_spec. unfold segments_stripped.
  rewrite map_map. cbn [segment_of_block Segment.content].
  rewrite <- concat_section_blocks, concat_map.
  rewrite <- join_concat.
  - rewrite map_map. reflexivity.
  - apply Forall_map.
    eapply Forall_impl; [|apply section_blocks_nonempty].
    intros b Hb. destruct b; [congruence | discriminate].
Qed.

(** The contents of the returned entries, joined by newlines, are the lines
    of the text from the first section heading on, each stripped and joined
    by newlines: from there on no line is lost, repeated or moved. *)
Theorem segments_cover_text (text : str) :
  Py.join [LF]
    (map Segment.content (returned_segments (split_nace_by_sections text)))
  = Py.join [LF]
      (map Py.strip
         (skip_while (fun l => negb (is_section_line l))
            (Py.split [LF] text))).
Proof. apply joined_contents. Qed.

Lemma join_split_go sep s :
  forall cur, Py.join [sep] (Py.split_go [sep] s 0 cur) = rev cur ++ s.
Proof.
  induction s as [|c s IH]; intros cur; cbn [Py.split_go].
  - simpl. rewrite app_nil_r. reflexivity.
  - cbn [Py.startswith]. rewrite andb_true_r.
    destruct (N.eqb_spec sep c) as [->|Hne].
    + cbn [length Nat.sub].
      rewrite join_cons by apply split_go_nonempty.
      rewrite IH. reflexivity.
    + rewrite IH. simpl. rewrite <- app_assoc. reflexivity.
Qed.

(** Splitting on a character and joining with it gives the text back. *)
Lemma join_split sep s : Py.join [sep] (Py.split [sep] s) = s.
Proof. apply (join_split_go sep s []). Qed.

Lemma map_id_on {A} (f : A -> A) l :
  (forall x, In x l -> f x = x) -> map f l = l.
Proof.
  induction l as [|x l IH]; intros H; simpl; [reflexivity|].
  rewrite (H x (or_introl eq_refl)), IH; [reflexivity|].
  intros y Hy. apply H. right. exact Hy.
Qed.

(** Round trip: when the first line of the text is a section heading and no
    line has whitespace at either end, joining the contents of the returned
    entries by newlines gives the text back. *)
Theorem segments_round_trip (text : str) :
  is_section_line (hd [] (Py.split [LF] text)) = true ->
  (forall l, In l (Py.split [LF] text) -> Py.strip l = l) ->
  Py.join [LF]
    (map Segment.content (returned_segments (split_nace_by_sections text)))
  = text.
Proof.
  intros Hh Hs. rewrite joined_contents.
  destruct (Py.split [LF] text) as [|l lines] eqn:E.
  - exfalso. revert E. apply split_go_nonempty.
  - simpl in Hh. simpl skip_while. rewrite Hh. simpl negb. cbv iota.
    rewrite (map_id_on Py.strip (l :: lines) Hs), <- E.
    apply join_split.
Qed.

Lemma segments_round_trip_witness :
  Py.join [LF]
    (map Segment.content
       (returned_segments (split_nace_by_sections two_sections)))
  = two_sections.
Proof.
  apply segments_round_trip.
  - vm_compute; reflexivity.
  - intros l Hl. vm_compute in Hl.
    repeat (destruct Hl as [<-|Hl]; [vm_compute; reflexivity|]).
    destruct Hl.
Defined.

(** ** The names of the entries *)

Lemma startswith_prefix p t : Py.startswith p (p ++ t) = true.
Proof.
  induction p as [|x p IH]; simpl; [reflexivity|].
  rewrite N.eqb_refl. exact IH.
Qed.

Lemma text_before_prefix sep s : exists t, s = text_before sep s ++ t.
Proof.
  induction s as [|c s [t IH]]; simpl; [exists []; reflexivity|].
  destruct (c =? sep)%N; [exists (c :: s); reflexivity|].
  exists t. simpl. f_equal. exact IH.
Qed.

Lemma drop_while_middle p u x v :
  p x = false ->
  Py.drop_while p (u ++ x :: v) = Py.drop_while p u ++ x :: v.
Proof.
  intros H. induction u as [|y u IH]; simpl.
  - rewrite H. reflexivity.
  - destruct (p y); [exact IH | reflexivity].
Qed.

Lemma rstrip_middle a x b :
  isspace_char x = false ->
  Py.rstrip (a ++ x :: b) = a ++ x :: Py.rstrip b.
Proof.
  intros H. unfold Py.rstrip.
  rewrite rev_app_distr. simpl rev. rewrite <- app_assoc. simpl app.
  rewrite (drop_while_middle _ _ _ _ H), rev_app_distr. simpl.
  rewrite rev_involutive, <- app_assoc. reflexivity.
Qed.

Lemma upper_not_dash l sep :
  is_upper l = true -> is_dash sep = true -> (l =? sep)%N = false.
Proof.
  unfold is_upper, is_dash, EN_DASH, EM_DASH, HYPHEN. intros Hu Hd.
  apply andb_true_iff in Hu as [H1 H2]. apply N.leb_le in H1, H2.
  apply N.eqb_neq. intros ->.
  repeat (apply orb_true_iff in Hd as [Hd|Hd]);
    apply N.eqb_eq in Hd; lia.
Qed.

Lemma upper_not_space l : is_upper l = true -> isspace_char l = false.
Proof.
  unfold is_upper. intros Hu.
  apply andb_true_iff in Hu as [H1 H2]. apply N.leb_le in H1, H2.
  destruct (isspace_char l) eqn:E; [|reflexivity].
  unfold isspace_char, in_ranges, space_ranges in E. simpl in E.
  repeat (apply orb_true_iff in E as [E|E]);
    try (apply andb_true_iff in E as [E1 E2]; apply N.leb_le in E1, E2; lia).
  discriminate.
Qed.

Lemma text_before_app sep p s :
  (forall c, In c p -> (c =? sep)%N = false) ->
  text_before sep (p ++ s) = p ++ text_before sep s.
Proof.
  induction p as [|x p IH]; intros H; simpl; [reflexivity|].
  rewrite (H x (or_introl eq_refl)), IH; [reflexivity|].
  intros c Hc. apply H. right. exact Hc.
Qed.

Lemma heading_prefix_no_dash sep c :
  is_dash sep = true -> In c (lit "# Section ") -> (c =? sep)%N = false.
Proof.
  unfold is_dash, EN_DASH, EM_DASH, HYPHEN. intros Hd Hc.
  repeat (apply orb_true_iff in Hd as [Hd|Hd]);
    apply N.eqb_eq in Hd; subst sep; simpl in Hc;
    repeat (destruct Hc as [<-|Hc]; [reflexivity|]); destruct Hc.
Qed.

(** The name computed for a heading starts with "# Section " and the
    letter, and is a prefix of the stripped heading. *)
Lemma name_before_dash_shape raw :
  is_section_line raw = true ->
  exists l tail rest,
    is_upper l = true /\
    name_before_dash raw = lit "# Section " ++ l :: tail /\
    Py.strip raw = name_before_dash raw ++ rest.
Proof.
  unfold is_section_line, name_before_dash. intros H.
  destruct (section_heading_shape _ H) as (l & r & d & E & U & _).
  cbv zeta. rewrite E.
  assert (T : forall sep, is_dash sep = true ->
            exists tail rest,
              Py.strip (text_before sep (lit "# Section " ++ l :: r))
                = lit "# Section " ++ l :: tail /\
              lit "# Section " ++ l :: r
                = Py.strip (text_before sep (lit "# Section " ++ l :: r))
                  ++ rest).
  { intros sep Hsep.
    assert (Hb : text_before sep (lit "# Section " ++ l :: r)
                 = lit "# Section " ++ l :: text_before sep r).
    { change (lit "# Section " ++ l :: r)
        with ((lit "# Section " ++ [l]) ++ r).
      rewrite text_before_app; [rewrite <- app_assoc; reflexivity|].
      intros c Hc. apply in_app_or in Hc as [Hc|[<-|[]]].
      - apply heading_prefix_no_dash; assumption.
      - apply upper_not_dash; assumption. }
    rewrite Hb. unfold Py.strip.
    replace (Py.lstrip (lit "# Section " ++ l :: text_before sep r))
      with (lit "# Section " ++ l :: text_before sep r) by reflexivity.
    rewrite (rstrip_middle _ _ _ (upper_not_space l U)).
    destruct (rstrip_prefix isspace_char (text_before sep r)) as [t1 E1].
    destruct (text_before_prefix sep r) as [t2 E2].
    exists (Py.rstrip (text_before sep r)), (t1 ++ t2). split; [reflexivity|].
    rewrite <- app_assoc. apply (f_equal (app (lit "# Section "))).
    change ((l :: Py.rstrip (text_before sep r)) ++ t1 ++ t2)
      with (l :: (Py.rstrip (text_before sep r) ++ t1 ++ t2)).
    f_equal. rewrite app_assoc. unfold Py.rstrip. rewrite <- E1. exact E2. }
  assert (D1 : is_dash EN_DASH = true) by reflexivity.
  assert (D2 : is_dash EM_DASH = true) by reflexivity.
  assert (D3 : is_dash HYPHEN = true) by reflexivity.
  exists l.
  destruct (Py.mem_char EN_DASH _);
    [destruct (T _ D1) as (tl & rs & H1 & H2); exists tl, rs; auto|].
  destruct (Py.mem_char EM_DASH _);
    [destruct (T _ D2) as (tl & rs & H1 & H2); exists tl, rs; auto|].
  destruct (T _ D3) as (tl & rs & H1 & H2); exists tl, rs; auto.
Qed.

Lemma segments_stripped_In sg lines :
  In sg (segments_stripped lines) ->
  exists l rest,
    is_section_line l = true /\
    sg = Segment.mk (name_before_dash l)
           (Py.join [LF] (Py.strip l :: rest)).
Proof.
  unfold segments_stripped.
  induction lines as [|l lines IH]; simpl; [intros []|].
  destruct (is_section_line l) eqn:Hh; [|exact IH].
  intros [<-|H]; [|exact (IH H)].
  exists l. eexists. split; [exact Hh | reflexivity].
Qed.

(** Every returned entry has a name that starts with "# Section " and the
    section letter (the "# " of the heading is kept), and its content starts
    with its name. *)
Theorem segment_name_shape (text : str) (sg : Segment.t) :
  In sg (returned_segments (split_nace_by_sections text)) ->
  exists l,
    is_upper l = true /\
    Py.startswith (lit "# Section " ++ [l]) (Segment.name sg) = true /\
    Py.startswith (Segment.name sg) (Segment.content sg) = true.
Proof.
  rewrite returned_segments_spec. intros H.
  apply segments_stripped_In in H as (raw & rest & Hh & ->).
  destruct (name_before_dash_shape raw Hh) as (l & tail & rs & U & En & Es).
  exists l. split; [exact U|]. cbn [Segment.name Segment.content]. split.
  - rewrite En.
    change (lit "# Section " ++ l :: tail)
      with ((lit "# Section " ++ [l]) ++ tail) at 1.
    + apply startswith_prefix.
  - rewrite Es. destruct rest as [|x rest].
    + simpl. apply startswith_prefix.
    + rewrite join_cons by discriminate. rewrite <- app_assoc.
      apply startswith_prefix.
Qed.

Lemma segment_name_shape_witness :
  exists l,
    is_upper l = true /\
    Py.startswith (lit "# Section " ++ [l]) (lit "# Section A") = true /\
    Py.startswith (lit "# Section A")
      (lit "# Section A - Agriculture" ++ [LF] ++ lit "01 Crop production")
    = true.
Proof.
  apply (segment_name_shape two_sections
           (Segment.mk (lit "# Section A")
              (lit "# Section A - Agriculture" ++ [LF]
               ++ lit "01 Crop production"))).
  vm_compute. left. reflexivity.
Defined.

(** The function returns the empty list, and prints nothing, exactly when
    no line of the text is a section heading. *)
Theorem no_heading_no_segment (text : str) :
  split_nace_by_sections text = Ok ([], []) <->
  (forall l, In l (Py.split [LF] text) -> is_section_line l = false).
Proof.
  rewrite split_segments. unfold segments_stripped.
  generalize (Py.split [LF] text) as lines.
  induction lines as [|l lines IH]; simpl.
  - split; [intros _ x [] | reflexivity].
  - destruct (is_section_line l) eqn:Hh; simpl.
    + split; [discriminate|]. intros H.
      rewrite (H l (or_introl eq_refl)) in Hh. discriminate.
    + rewrite IH. split.
      * intros H x [<-|Hx]; [exact Hh | apply H, Hx].
      * intros H x Hx. apply H. right. exact Hx.
Qed.

(* ================================================================== *)
(** * Part 16: the file names of write_section_files *)
(* ================================================================== *)

Lemma split_without_separator sep s :
  Py.contains sep s = false ->
  forall cur, Py.split_go sep s 0 cur = [rev cur ++ s].
Proof.
  induction s as [|c s IH]; intros H cur; cbn [Py.split_go].
  - rewrite app_nil_r. reflexivity.
  - cbn [Py.contains] in H. apply orb_false_iff in H as [H1 H2].
    rewrite H1, (IH H2). simpl. rewrite <- app_assoc. reflexivity.
Qed.

Lemma contains_first x p s : Py.contains (x :: p) s = true -> In x s.
Proof.
  induction s as [|c s IH]; simpl; [discriminate|].
  intros H. apply orb_true_iff in H as [H|H].
  - apply andb_true_iff in H as [E _]. apply N.eqb_eq in E. auto.
  - auto.
Qed.

(** The file of a section is named by the lower-cased name of the section
    followed by ".md": lower-casing comes first, so the text "Section " with
    its capital is not there to be removed any more.  Of [str.lower] only
    this is used: its result holds no capital "S". *)
Theorem filename_keeps_section_word (lower : str -> str) (name : str) :
  ~ In (N_of_ascii "S") (lower name) ->
  section_filename lower name = lower name ++ lit ".md".
Proof.
  intros H. unfold section_filename, replace, Py.split.
  rewrite split_without_separator; [reflexivity|].
  destruct (Py.contains (lit "Section ") (lower name)) eqn:C; [|reflexivity].
  exfalso. apply H. exact (contains_first _ _ _ C).
Qed.

Lemma lower_ascii_no_capital_S s : ~ In (N_of_ascii "S") (lower_ascii s).
Proof.
  unfold lower_ascii. rewrite in_map_iff. intros (c & E & _).
  unfold is_upper in E.
  destruct ((65 <=? c)%N && (c <=? 90)%N) eqn:U.
  - apply andb_true_iff in U as [U1 U2]. apply N.leb_le in U1, U2.
    change (N_of_ascii "S") with 83%N in E. lia.
  - subst c. discriminate.
Qed.

Lemma filename_keeps_section_word_witness :
  section_filename lower_ascii (lit "# Section A") = lit "# section a.md".
Proof.
  apply (filename_keeps_section_word lower_ascii (lit "# Section A")).
  apply lower_ascii_no_capital_S.
Defined.
